(** * The ECS worker validation flow (sample_flow.py), embedded in Rocq

    The flow of [src/sample_flow.py] is three collectors and one aggregator:
    [get_system_info], [test_connectivity], [check_resources] and
    [validation_flow].  Each is translated below as a function of a [World],
    the record of everything the Python code reads from outside itself: the
    process environment, the clock, the platform module, the two HTTP
    exchanges, the JSON parser and the three psutil sampling calls.

    Python values are the inductive [pyval]; dicts are association lists in
    insertion order.  Exceptions are values of [exn]; a Python call that can
    raise has type [result A].  Floats are binary64 values carried as the
    rational they denote, with correct rounding written out ([rnd64]).

    The [@task] and [@flow] decorators are taken as plain calls: a task that
    raises inside the flow raises in the flow.  The [print] statements write
    to standard output only; they read keys that the dict literals before
    them always define, and are left out. *)

From Stdlib Require Import ZArith NArith QArith Qround Qabs Qpower Lqa Lia.
From stdpp Require Import base option list strings gmap.

Local Open Scope string_scope.
Local Open Scope Z_scope.
Local Open Scope list_scope.

(* ================================================================== *)
(** ** Exceptions and the error monad *)

(** An instance of Python's [Exception]: its class name and [str(e)]. *)
Record exn : Type := Exn { exn_class : string; exn_str : string }.

(** The outcome of a Python call: a value, or a raised exception. *)
Inductive result (A : Type) : Type :=
| Ok (a : A)
| Raise (e : exn).
Arguments Ok {A} a.
Arguments Raise {A} e.

#[export] Instance result_ret : MRet result := fun A a => Ok a.
#[export] Instance result_bind : MBind result := fun A B k m =>
  match m with
  | Ok a => k a
  | Raise e => Raise e
  end.

(** [try: body except Exception as e: handler e]. *)
Definition try_except {A : Type} (body : result A) (handler : exn -> result A)
  : result A :=
  match body with
  | Ok a => Ok a
  | Raise e => handler e
  end.

(** Inversion of one bind of a computation that returned. *)
Ltac bind_inv H x Hx :=
  match type of H with
  | (?m ≫= _) = Ok _ =>
      destruct m as [x|] eqn:Hx;
      [cbn [mbind result_bind] in H | discriminate H]
  end.

(* ================================================================== *)
(** ** Binary64 floats

    A finite double is carried as the rational it denotes.  [rnd64] is
    round-to-nearest, ties-to-even, at precision 53 with the subnormal
    exponent floor -1074 and no upper exponent bound; a caller tests the
    rounded magnitude against 2^1024 to detect overflow.  The sign of zero is
    not kept (Python compares [-0.0 == 0.0]). *)

(** Nearest integer, ties to the even one. *)
Definition rne (x : Q) : Z :=
  let f := Qfloor x in
  match (x - inject_Z f ?= 1 # 2)%Q with
  | Lt => f
  | Gt => f + 1
  | Eq => if Z.even f then f else f + 1
  end.

(** [floor (log2 x)] for [0 < x]. *)
Definition ilog2 (x : Q) : Z :=
  let e := Z.log2 (Qnum x) - Z.log2 (Zpos (Qden x)) in
  if Qle_bool (2 ^ e) x then e else e - 1.

(** Exponent of the unit in the last place of a double in binade [e]. *)
Definition fexp (e : Z) : Z := Z.max (e - 52) (-1074).

Definition rnd64 (x : Q) : Q :=
  let u := fexp (ilog2 (Qabs x)) in
  Qred (inject_Z (rne (x / 2 ^ u)) * 2 ^ u).

(** The rounded magnitude does not fit a double. *)
Definition overflows (r : Q) : bool := Qle_bool (2 ^ 1024) (Qabs r).

Inductive pyfloat : Type :=
| FFinite (q : Q)
| FInf (negative : bool)
| FNaN.

Definition Qneg_bool (q : Q) : bool := negb (Qle_bool 0 q).

(** [x * y] on floats. *)
Definition py_fmul (x y : pyfloat) : pyfloat :=
  match x, y with
  | FNaN, _ | _, FNaN => FNaN
  | FFinite a, FFinite b =>
      let r := rnd64 (a * b) in
      if overflows r then FInf (Qneg_bool r) else FFinite r
  | FInf s, FInf t => FInf (xorb s t)
  | FInf s, FFinite b | FFinite b, FInf s =>
      if Qeq_bool b 0 then FNaN else FInf (xorb s (Qneg_bool b))
  end.

(** [a / b] on Python ints: the correctly rounded quotient. *)
Definition py_truediv (a b : Z) : result pyfloat :=
  if (b =? 0)%Z then Raise (Exn "ZeroDivisionError" "division by zero")
  else
    let r := rnd64 (inject_Z a / inject_Z b) in
    if overflows r
    then Raise (Exn "OverflowError"
                  "integer division result too large for a float")
    else Ok (FFinite r).

(** [round(x, ndigits)] on a float: the decimal with [ndigits] places nearest
    to the exact value of [x] (ties to even), converted back to a double. *)
Definition py_round (x : pyfloat) (ndigits : Z) : result pyfloat :=
  match x with
  | FFinite q =>
      let r := rnd64 (inject_Z (rne (q * 10 ^ ndigits)) / 10 ^ ndigits) in
      if overflows r
      then Raise (Exn "OverflowError" "rounded value too large to represent")
      else Ok (FFinite r)
  | _ => Ok x
  end.


(* ================================================================== *)
(** ** Python values *)

#[warnings="-register-all"]
Inductive pyval : Type :=
| VNone
| VBool (b : bool)
| VInt (n : Z)
| VFloat (x : pyfloat)
| VStr (s : string)
| VList (items : list pyval)
| VDict (items : list (string * pyval)).

Definition type_name (v : pyval) : string :=
  match v with
  | VNone => "NoneType"
  | VBool _ => "bool"
  | VInt _ => "int"
  | VFloat _ => "float"
  | VStr _ => "str"
  | VList _ => "list"
  | VDict _ => "dict"
  end.

(** Lookup in a dict's items. *)
Fixpoint dict_lookup (k : string) (d : list (string * pyval)) : option pyval :=
  match d with
  | [] => None
  | (k', v) :: d' => if String.eqb k k' then Some v else dict_lookup k d'
  end.

(** [v.get(k)]: [None] for a missing key; only dicts have the method. *)
Definition py_get (v : pyval) (k : string) : result pyval :=
  match v with
  | VDict d => Ok (default VNone (dict_lookup k d))
  | _ => Raise (Exn "AttributeError"
                  ("'" +:+ type_name v +:+ "' object has no attribute 'get'"))
  end.

(** [v[k]] with a string key. *)
Definition py_getitem (v : pyval) (k : string) : result pyval :=
  match v with
  | VDict d =>
      match dict_lookup k d with
      | Some x => Ok x
      | None => Raise (Exn "KeyError" ("'" +:+ k +:+ "'"))
      end
  | VList _ =>
      Raise (Exn "TypeError" "list indices must be integers or slices, not str")
  | VStr _ =>
      Raise (Exn "TypeError" "string indices must be integers, not 'str'")
  | _ =>
      Raise (Exn "TypeError"
               ("'" +:+ type_name v +:+ "' object is not subscriptable"))
  end.

(** [v == s] for a string literal [s]. *)
Definition py_eq_str (v : pyval) (s : string) : bool :=
  match v with
  | VStr t => String.eqb t s
  | _ => false
  end.

(** Truth value of what [os.environ.get(k)] returns: [None] and the empty
    string are false. *)
Definition str_truthy (o : option string) : bool :=
  match o with
  | Some s => negb (String.eqb s "")
  | None => false
  end.

(* ================================================================== *)
(** ** The outside world *)

(** The fields of [psutil.virtual_memory()] that the flow reads; byte
    counters are non-negative integers. *)
Record svmem : Type := {
  mem_total : N;
  mem_used : N;
  mem_percent : pyfloat
}.

(** The fields of [psutil.disk_usage(path)] that the flow reads. *)
Record sdiskusage : Type := {
  disk_total : N;
  disk_used : N
}.

Record World : Type := {
  (** [os.environ] *)
  environ : gmap string string;
  (** [datetime.now().isoformat()], by call number *)
  now_isoformat : nat -> string;
  (** [platform.platform()] and [platform.python_version()] *)
  platform_platform : string;
  platform_python_version : string;
  (** [urllib.request.urlopen(url, timeout=t).read().decode()] *)
  urlopen_text : string -> Z -> result string;
  (** [json.loads] *)
  json_loads : string -> result pyval;
  (** [psutil.cpu_percent(interval=i)] *)
  cpu_percent : Z -> result pyfloat;
  (** [psutil.virtual_memory()] *)
  virtual_memory : result svmem;
  (** [psutil.disk_usage(path)] *)
  disk_usage : string -> result sdiskusage
}.

(** [os.environ.get(k, d)] *)
Definition environ_get (w : World) (k d : string) : string :=
  default d (environ w !! k).

(** The world with one environment variable removed. *)
Definition unsetenv (k : string) (w : World) : World :=
  {| environ := delete k (environ w);
     now_isoformat := now_isoformat w;
     platform_platform := platform_platform w;
     platform_python_version := platform_python_version w;
     urlopen_text := urlopen_text w;
     json_loads := json_loads w;
     cpu_percent := cpu_percent w;
     virtual_memory := virtual_memory w;
     disk_usage := disk_usage w |}.

(* ================================================================== *)
(** ** The flow *)

(** [get_system_info], lines 13-30. *)
Definition get_system_info (w : World) : result pyval :=
  Ok (VDict [
    ("timestamp", VStr (now_isoformat w 0%nat));
    ("platform", VStr (platform_platform w));
    ("python_version", VStr (platform_python_version w));
    ("container_hostname", VStr (environ_get w "HOSTNAME" "unknown"));
    ("aws_region", VStr (environ_get w "AWS_DEFAULT_REGION" "unknown"));
    ("prefect_api_url", VStr (environ_get w "PREFECT_API_URL" "not_set"));
    ("task_family", VStr (environ_get w "ECS_TASK_FAMILY" "unknown"));
    ("cluster_name", VStr (environ_get w "ECS_CLUSTER" "unknown"))
  ]).

Definition success_entry (name : string) (payload : pyval) : pyval :=
  VDict [("test", VStr name); ("status", VStr "success"); ("result", payload)].

Definition failed_entry (name : string) (e : exn) : pyval :=
  VDict [("test", VStr name); ("status", VStr "failed");
         ("error", VStr (exn_str e))].

(** Lines 41-54: the internet probe.  [tests] is the list before the [try];
    the body appends as its last statement, so the handler sees [tests]
    unchanged. *)
Definition probe_internet (w : World) (tests : list pyval)
  : result (list pyval) :=
  try_except
    (body ← urlopen_text w "https://httpbin.org/ip" 10;
     ip_info ← json_loads w body;
     Ok (tests ++ [success_entry "internet_connectivity" ip_info]))
    (fun e => Ok (tests ++ [failed_entry "internet_connectivity" e])).

(** Lines 57-77: the task-metadata probe. *)
Definition probe_ecs_metadata (w : World) (tests : list pyval)
  : result (list pyval) :=
  try_except
    (let metadata_uri := environ w !! "ECS_CONTAINER_METADATA_URI_V4" in
     if str_truthy metadata_uri then
       body ← urlopen_text w (default "" metadata_uri +:+ "/task") 5;
       task_metadata ← json_loads w body;
       task_arn ← py_get task_metadata "TaskARN";
       cluster ← py_get task_metadata "Cluster";
       family ← py_get task_metadata "Family";
       Ok (tests ++ [success_entry "ecs_metadata"
                       (VDict [("task_arn", task_arn);
                               ("cluster", cluster);
                               ("family", family)])])
     else Ok tests)
    (fun e => Ok (tests ++ [failed_entry "ecs_metadata" e])).

(** [test_connectivity], lines 33-86. *)
Definition test_connectivity (w : World) : result (list pyval) :=
  tests ← probe_internet w [];
  probe_ecs_metadata w tests.

(** [round(a / b, 2)] *)
Definition round_div2 (a b : Z) : result pyfloat :=
  x ← py_truediv a b; py_round x 2.

(** [check_resources], lines 89-113. *)
Definition check_resources (w : World) : result pyval :=
  cpu ← cpu_percent w 1;
  memory ← virtual_memory w;
  disk ← disk_usage w "/";
  memory_total_gb ← round_div2 (Z.of_N (mem_total memory)) (1024 ^ 3);
  memory_used_gb ← round_div2 (Z.of_N (mem_used memory)) (1024 ^ 3);
  disk_total_gb ← round_div2 (Z.of_N (disk_total disk)) (1024 ^ 3);
  disk_used_gb ← round_div2 (Z.of_N (disk_used disk)) (1024 ^ 3);
  ratio ← py_truediv (Z.of_N (disk_used disk)) (Z.of_N (disk_total disk));
  disk_percent ← py_round (py_fmul ratio (FFinite 100)) 2;
  Ok (VDict [
    ("cpu_percent", VFloat cpu);
    ("memory_total_gb", VFloat memory_total_gb);
    ("memory_used_gb", VFloat memory_used_gb);
    ("memory_percent", VFloat (mem_percent memory));
    ("disk_total_gb", VFloat disk_total_gb);
    ("disk_used_gb", VFloat disk_used_gb);
    ("disk_percent", VFloat disk_percent)
  ]).

(** [all(test["status"] == "success" for test in tests)], lines 137-139:
    [all] stops at the first false element. *)
Fixpoint all_status_success (tests : list pyval) : result bool :=
  match tests with
  | [] => Ok true
  | test :: rest =>
      status ← py_getitem test "status";
      if py_eq_str status "success" then all_status_success rest else Ok false
  end.

(** [validation_flow], lines 117-149. *)
Definition validation_flow (w : World) : result pyval :=
  system_info ← get_system_info w;
  connectivity_results ← test_connectivity w;
  resource_info ← check_resources w;
  validation_success ← all_status_success connectivity_results;
  Ok (VDict [
    ("flow_status", VStr "completed");
    ("timestamp", VStr (now_isoformat w 1%nat));
    ("system_info", system_info);
    ("connectivity_tests", VList connectivity_results);
    ("resource_usage", resource_info);
    ("validation_success", VBool validation_success)
  ]).

(* ================================================================== *)
(** ** Vocabulary of the specification *)

(** A key of a record-like dict. *)
Definition field (r : pyval) (k : string) : option pyval :=
  match r with
  | VDict d => dict_lookup k d
  | _ => None
  end.

(** A connectivity entry: a dict that has a ["status"] key. *)
Definition is_entry (t : pyval) : Prop := is_Some (field t "status").

(** The entry's status is ["success"]. *)
Definition entry_succeeded (t : pyval) : bool :=
  match field t "status" with
  | Some v => py_eq_str v "success"
  | None => false
  end.

(** Name of the variable that holds the task-metadata endpoint. *)
Definition metadata_var : string := "ECS_CONTAINER_METADATA_URI_V4".

(** An HTTP exchange as the probes perform it: GET, read, decode, parse. *)
Definition http_json (w : World) (url : string) (timeout : Z) : result pyval :=
  body ← urlopen_text w url timeout; json_loads w body.

(** The exchange with [<base>/task] yields a JSON object. *)
Definition task_metadata_object (w : World) (base : string) : Prop :=
  exists d, http_json w (base +:+ "/task") 5 = Ok (VDict d).

(** The entry the internet probe records, by the outcome of its exchange. *)
Definition internet_entry (w : World) : pyval :=
  match http_json w "https://httpbin.org/ip" 10 with
  | Ok ip_info => success_entry "internet_connectivity" ip_info
  | Raise e => failed_entry "internet_connectivity" e
  end.

(** The entry the metadata probe records once it runs against [base]. *)
Definition metadata_entry (w : World) (base : string) : pyval :=
  match http_json w (base +:+ "/task") 5 with
  | Ok (VDict d) =>
      success_entry "ecs_metadata"
        (VDict [("task_arn", default VNone (dict_lookup "TaskARN" d));
                ("cluster", default VNone (dict_lookup "Cluster" d));
                ("family", default VNone (dict_lookup "Family" d))])
  | Ok v =>
      failed_entry "ecs_metadata"
        (Exn "AttributeError"
           ("'" +:+ type_name v +:+ "' object has no attribute 'get'"))
  | Raise e => failed_entry "ecs_metadata" e
  end.


(** The first of the three sampling calls to raise, in call order, raises [e]. *)
Inductive sampling_raises (w : World) (e : exn) : Prop :=
| cpu_raises :
    cpu_percent w 1 = Raise e -> sampling_raises w e
| memory_raises cpu :
    cpu_percent w 1 = Ok cpu -> virtual_memory w = Raise e ->
    sampling_raises w e
| disk_raises cpu memory :
    cpu_percent w 1 = Ok cpu -> virtual_memory w = Ok memory ->
    disk_usage w "/" = Raise e -> sampling_raises w e.

(** The gigabyte fields of ResourceUsage and the byte counter of each. *)
Definition gb_fields (memory : svmem) (disk : sdiskusage) : list (string * N) :=
  [("memory_total_gb", mem_total memory);
   ("memory_used_gb", mem_used memory);
   ("disk_total_gb", disk_total disk);
   ("disk_used_gb", disk_used disk)].

(** The float quotient [n / 1024**3]. *)
Definition bytes_to_gb (n : N) : Q :=
  rnd64 (inject_Z (Z.of_N n) / inject_Z (1024 ^ 3)).

(** The multiple of [10^-ndigits] nearest to [q], ties to the even one. *)
Definition decimal_round (ndigits : Z) (q : Q) : Q :=
  (inject_Z (rne (q * 10 ^ ndigits)) / 10 ^ ndigits)%Q.

(** [round(n / 1024**3, 2)] as a rational. *)
Definition gb_rounded (n : N) : Q :=
  rnd64 (decimal_round 2 (bytes_to_gb n)).






(* ================================================================== *)
(** ** Sample worlds *)

Definition sample_urlopen (url : string) (timeout : Z) : result string :=
  if String.eqb url "https://httpbin.org/ip" then Ok "ip-body"
  else if String.eqb url "http://169.254.170.2/v4/abc/task" then Ok "task-body"
  else Raise (Exn "URLError" "<urlopen error [Errno -2] Name or service not known>").

Definition sample_json_loads (s : string) : result pyval :=
  if String.eqb s "ip-body" then Ok (VDict [("origin", VStr "1.2.3.4")])
  else if String.eqb s "task-body" then
    Ok (VDict [("TaskARN", VStr "a"); ("Cluster", VStr "c"); ("Family", VStr "f")])
  else Raise (Exn "JSONDecodeError" "Expecting value: line 1 column 1 (char 0)").

Definition sample_now (n : nat) : string :=
  match n with
  | O => "2024-05-01T10:00:00.000001"
  | _ => "2024-05-01T10:00:01.250000"
  end.

(** A task on ECS: the metadata endpoint is set and answers. *)
Definition world_ecs : World := {|
  environ := {[ "HOSTNAME" := "ip-10-0-1-17";
                "ECS_CONTAINER_METADATA_URI_V4" := "http://169.254.170.2/v4/abc" ]};
  now_isoformat := sample_now;
  platform_platform := "Linux-5.10.0-x86_64-with-glibc2.31";
  platform_python_version := "3.11.4";
  urlopen_text := sample_urlopen;
  json_loads := sample_json_loads;
  cpu_percent := fun _ => Ok (FFinite (25 # 2));
  virtual_memory :=
    Ok {| mem_total := 13249974108; mem_used := 134217728;
          mem_percent := FFinite (412 # 10) |};
  disk_usage := fun _ =>
    Ok {| disk_total := 107374182400; disk_used := 35433480192 |}
|}.

Definition with_environ (env : gmap string string) (w : World) : World :=
  {| environ := env;
     now_isoformat := now_isoformat w;
     platform_platform := platform_platform w;
     platform_python_version := platform_python_version w;
     urlopen_text := urlopen_text w;
     json_loads := json_loads w;
     cpu_percent := cpu_percent w;
     virtual_memory := virtual_memory w;
     disk_usage := disk_usage w |}.

(** The endpoint variable is exported, but empty. *)
Definition world_empty_uri : World :=
  with_environ {[ "ECS_CONTAINER_METADATA_URI_V4" := "" ]} world_ecs.

(** The endpoint answers with a JSON object that has none of the keys. *)
Definition world_bare_object : World := {|
  environ := environ world_ecs;
  now_isoformat := sample_now;
  platform_platform := platform_platform world_ecs;
  platform_python_version := platform_python_version world_ecs;
  urlopen_text := sample_urlopen;
  json_loads := fun s =>
    if String.eqb s "task-body" then Ok (VDict [("Revision", VStr "7")])
    else sample_json_loads s;
  cpu_percent := cpu_percent world_ecs;
  virtual_memory := virtual_memory world_ecs;
  disk_usage := disk_usage world_ecs
|}.

(** The endpoint answers with a JSON array instead of an object. *)
Definition world_list_body : World := {|
  environ := environ world_ecs;
  now_isoformat := sample_now;
  platform_platform := platform_platform world_ecs;
  platform_python_version := platform_python_version world_ecs;
  urlopen_text := sample_urlopen;
  json_loads := fun s =>
    if String.eqb s "task-body" then Ok (VList [])
    else sample_json_loads s;
  cpu_percent := cpu_percent world_ecs;
  virtual_memory := virtual_memory world_ecs;
  disk_usage := disk_usage world_ecs
|}.


(** The disk cannot be sampled. *)
Definition world_disk_error : World := {|
  environ := environ world_ecs;
  now_isoformat := sample_now;
  platform_platform := platform_platform world_ecs;
  platform_python_version := platform_python_version world_ecs;
  urlopen_text := sample_urlopen;
  json_loads := sample_json_loads;
  cpu_percent := cpu_percent world_ecs;
  virtual_memory := virtual_memory world_ecs;
  disk_usage := fun _ =>
    Raise (Exn "FileNotFoundError" "[Errno 2] No such file or directory: '/'")
|}.

(** What the flow returns in [world_ecs]. *)
Definition summary_ecs : pyval :=
  Eval vm_compute in
    match validation_flow world_ecs with
    | Ok s => s
    | Raise _ => VNone
    end.

Definition resources_ecs : pyval :=
  Eval vm_compute in
    match check_resources world_ecs with
    | Ok r => r
    | Raise _ => VNone
    end.

(* ================================================================== *)
(** ** Vocabulary for the properties of the whole flow *)

(** The internet exchange yields a JSON value. *)
Definition internet_reachable (w : World) : Prop :=
  exists ip_info, http_json w "https://httpbin.org/ip" 10 = Ok ip_info.

(** The metadata probe has nothing to report against: the endpoint variable
    is unset or empty, or the exchange with it yields a JSON object. *)
Definition endpoint_satisfied (w : World) : Prop :=
  match environ w !! metadata_var with
  | None => True
  | Some base => base = "" \/ task_metadata_object w base
  end.

(** The shape of a connectivity entry: a test name, and either "success"
    with a result and no error, or "failed" with an error string and no
    result. *)
Definition well_formed_entry (t : pyval) : Prop :=
  (exists name, field t "test" = Some (VStr name)) /\
  ((field t "status" = Some (VStr "success") /\
    is_Some (field t "result") /\ field t "error" = None) \/
   (field t "status" = Some (VStr "failed") /\
    (exists msg, field t "error" = Some (VStr msg)) /\
    field t "result" = None)).

(** All four byte counters fit an unsigned 64-bit integer. *)
Definition counters64 (memory : svmem) (disk : sdiskusage) : Prop :=
  (mem_total memory < 2 ^ 64)%N /\ (mem_used memory < 2 ^ 64)%N /\
  (disk_total disk < 2 ^ 64)%N /\ (disk_used disk < 2 ^ 64)%N.

(** The summary the flow assembles from its three parts. *)
Definition summary_of (w : World) (info : pyval) (tests : list pyval)
    (resources : pyval) : pyval :=
  VDict [
    ("flow_status", VStr "completed");
    ("timestamp", VStr (now_isoformat w 1%nat));
    ("system_info", info);
    ("connectivity_tests", VList tests);
    ("resource_usage", resources);
    ("validation_success", VBool (forallb entry_succeeded tests))
  ].

(** A world whose disk sample is replaced. *)
Definition with_disk (disk : sdiskusage) (w : World) : World :=
  {| environ := environ w;
     now_isoformat := now_isoformat w;
     platform_platform := platform_platform w;
     platform_python_version := platform_python_version w;
     urlopen_text := urlopen_text w;
     json_loads := json_loads w;
     cpu_percent := cpu_percent w;
     virtual_memory := virtual_memory w;
     disk_usage := fun _ => Ok disk |}.

(** A pseudo-filesystem of size zero. *)
Definition world_zero_disk : World :=
  with_disk {| disk_total := 0; disk_used := 0 |} world_ecs.

(** A full disk and an untouched one, 100 GiB each. *)
Definition world_full_disk : World :=
  with_disk {| disk_total := 107374182400; disk_used := 107374182400 |}
    world_ecs.

Definition world_fresh_disk : World :=
  with_disk {| disk_total := 107374182400; disk_used := 0 |} world_ecs.

Definition resources_full_disk : pyval :=
  Eval vm_compute in
    match check_resources world_full_disk with
    | Ok r => r
    | Raise _ => VNone
    end.

Definition summary_full_disk : pyval :=
  Eval vm_compute in
    match validation_flow world_full_disk with
    | Ok s => s
    | Raise _ => VNone
    end.

Definition resources_fresh_disk : pyval :=
  Eval vm_compute in
    match check_resources world_fresh_disk with
    | Ok r => r
    | Raise _ => VNone
    end.


(** The record the sampler builds from its samples and the disk percentage
    it computed. *)
Definition resource_record (cpu : pyfloat) (memory : svmem)
    (disk : sdiskusage) (disk_percent : pyfloat) : pyval :=
  VDict [
    ("cpu_percent", VFloat cpu);
    ("memory_total_gb", VFloat (FFinite (gb_rounded (mem_total memory))));
    ("memory_used_gb", VFloat (FFinite (gb_rounded (mem_used memory))));
    ("memory_percent", VFloat (mem_percent memory));
    ("disk_total_gb", VFloat (FFinite (gb_rounded (disk_total disk))));
    ("disk_used_gb", VFloat (FFinite (gb_rounded (disk_used disk))));
    ("disk_percent", VFloat disk_percent)
  ].

(** The exact percentage of the disk in use. *)
Definition disk_percent_exact (disk : sdiskusage) : Q :=
  (100 * (inject_Z (Z.of_N (disk_used disk))
          / inject_Z (Z.of_N (disk_total disk))))%Q.

(* ================================================================== *)
(** * Properties *)

(** ** Rounding to the nearest integer and to the nearest double *)

Lemma inject_Z_succ (n : Z) : (inject_Z (n + 1) == inject_Z n + 1)%Q.
Proof. rewrite inject_Z_plus. reflexivity. Qed.

Lemma rne_cases (x : Q) :
  rne x = Qfloor x \/ rne x = Qfloor x + 1.
Proof.
  unfold rne. destruct (_ ?= _)%Q; [destruct (Z.even _)|..]; auto.
Qed.

Lemma Qfloor_bounds (x : Q) :
  (inject_Z (Qfloor x) <= x /\ x < inject_Z (Qfloor x) + 1)%Q.
Proof.
  split; [apply Qfloor_le|].
  rewrite <- inject_Z_succ. apply Qlt_floor.
Qed.

Lemma rne_near (x : Q) :
  (Qabs (inject_Z (rne x) - x) <= 1 # 2)%Q.
Proof.
  destruct (Qfloor_bounds x) as [Hl Hu].
  unfold rne. apply Qabs_Qle_condition.
  destruct (Qcompare_spec (x - inject_Z (Qfloor x)) (1 # 2)) as [Hc|Hc|Hc].
  - destruct (Z.even _); rewrite ?inject_Z_succ; split; lra.
  - split; lra.
  - rewrite inject_Z_succ. split; lra.
Qed.

Lemma rne_inject_Z (n : Z) : rne (inject_Z n) = n.
Proof.
  unfold rne. rewrite Qfloor_Z.
  destruct (Qcompare_spec (inject_Z n - inject_Z n) (1 # 2)) as [Hc|Hc|Hc];
    [exfalso; lra | reflexivity | exfalso; lra].
Qed.

Lemma rne_mono (x y : Q) : (x <= y)%Q -> rne x <= rne y.
Proof.
  intros Hxy.
  pose proof (Qfloor_resp_le _ _ Hxy) as Hf.
  destruct (Z.eq_dec (Qfloor x) (Qfloor y)) as [Heq|Hne].
  - unfold rne. rewrite <- Heq.
    destruct (Qcompare_spec (x - inject_Z (Qfloor x)) (1 # 2)) as [Hx|Hx|Hx],
             (Qcompare_spec (y - inject_Z (Qfloor x)) (1 # 2)) as [Hy|Hy|Hy];
      try destruct (Z.even _); try lia; exfalso; lra.
  - destruct (rne_cases x) as [-> | ->], (rne_cases y) as [-> | ->]; lia.
Qed.

Lemma rne_le_Z (x : Q) (n : Z) : (x <= inject_Z n)%Q -> rne x <= n.
Proof. intros H. rewrite <- (rne_inject_Z n). now apply rne_mono. Qed.

Lemma rne_ge_Z (x : Q) (n : Z) : (inject_Z n <= x)%Q -> n <= rne x.
Proof. intros H. rewrite <- (rne_inject_Z n). now apply rne_mono. Qed.

Lemma rne_comp (x y : Q) : (x == y)%Q -> rne x = rne y.
Proof.
  intros H. apply Z.le_antisymm; apply rne_mono; rewrite H; apply Qle_refl.
Qed.

(** *** Powers of two *)
Lemma two_pow_pos (e : Z) : (0 < 2 ^ e)%Q.
Proof. apply Qpower_0_lt. reflexivity. Qed.

Lemma two_pow_add (a b : Z) : (2 ^ (a + b) == 2 ^ a * 2 ^ b)%Q.
Proof. apply Qpower_plus. discriminate. Qed.

Lemma two_pow_sub (a b : Z) : (2 ^ (a - b) == 2 ^ a / 2 ^ b)%Q.
Proof. apply Qpower_minus. discriminate. Qed.

Lemma two_pow_succ (a : Z) : (2 ^ (a + 1) == 2 * 2 ^ a)%Q.
Proof. rewrite two_pow_add. rewrite Qpower_1_r. ring. Qed.

Lemma two_pow_le (a b : Z) : a <= b -> (2 ^ a <= 2 ^ b)%Q.
Proof. intros H. apply Qpower_le_compat_l; [exact H | discriminate]. Qed.

Lemma two_pow_lt_inv (a b : Z) : (2 ^ a < 2 ^ b)%Q -> a < b.
Proof. intros H. apply (Qpower_lt_compat_l_inv 2); [exact H | reflexivity]. Qed.

Lemma two_pow_inject (n : Z) : 0 <= n -> (2 ^ n == inject_Z (2 ^ n))%Q.
Proof. intros H. symmetry. apply (Zpower_Qpower 2 n H). Qed.

Lemma ilog2_spec (x : Q) :
  (0 < x)%Q -> (2 ^ ilog2 x <= x /\ x < 2 ^ (ilog2 x + 1))%Q.
Proof.
  intros Hx. destruct x as [p d]. 
  assert (0 < p) as Hp by (unfold Qlt in Hx; simpl in Hx; lia).
  unfold ilog2. cbn [Qnum Qden].
  set (a := Z.log2 p). set (b := Z.log2 (Z.pos d)).
  destruct (Z.log2_spec p Hp) as [Ha1 Ha2]. fold a in Ha1, Ha2.
  destruct (Z.log2_spec (Z.pos d) (Pos2Z.is_pos d)) as [Hb1 Hb2]. fold b in Hb1, Hb2.
  assert (0 <= a) as Ha0 by apply Z.log2_nonneg.
  assert (0 <= b) as Hb0 by apply Z.log2_nonneg.
  assert (p # d == inject_Z p / inject_Z (Z.pos d))%Q as Hq by apply Qmake_Qdiv.
  assert (0 < inject_Z (Z.pos d))%Q as Hd by reflexivity.
  assert (2 ^ a <= inject_Z p)%Q as Qa1 by (rewrite two_pow_inject by lia; now rewrite <- Zle_Qle).
  assert (inject_Z p < 2 ^ (a + 1))%Q as Qa2 by (rewrite two_pow_inject by lia; now rewrite <- Zlt_Qlt).
  assert (2 ^ b <= inject_Z (Z.pos d))%Q as Qb1 by (rewrite two_pow_inject by lia; now rewrite <- Zle_Qle).
  assert (inject_Z (Z.pos d) < 2 ^ (b + 1))%Q as Qb2 by (rewrite two_pow_inject by lia; now rewrite <- Zlt_Qlt).
  set (P := inject_Z p) in *. set (D := inject_Z (Z.pos d)) in *.
  pose proof (two_pow_pos a) as Pa. pose proof (two_pow_pos b) as Pb.
  rewrite two_pow_succ in Qa2, Qb2.
  assert (p # d < 2 ^ (a - b + 1))%Q as Hup.
  { rewrite Hq, two_pow_succ, two_pow_sub.
    apply Qlt_shift_div_r; [exact Hd|].
    assert (2 ^ a / 2 ^ b * 2 ^ b == 2 ^ a)%Q as Hr by (field; lra).
    assert (0 < 2 ^ a / 2 ^ b)%Q as Hr0 by (apply Qlt_shift_div_l; lra).
    nra. }
  assert (2 ^ (a - b - 1) <= p # d)%Q as Hlo.
  { rewrite Hq. apply Qle_shift_div_l; [exact Hd|].
    assert (2 ^ (a - b - 1) * (2 * 2 ^ b) == 2 ^ a)%Q as Hr.
    { rewrite <- two_pow_succ, <- two_pow_add. now replace (a - b - 1 + (b + 1)) with a by lia. }
    pose proof (two_pow_pos (a - b - 1)). nra. }
  destruct (Qle_bool _ _) eqn:Hc.
  - apply Qle_bool_iff in Hc. split; [exact Hc | exact Hup].
  - split; [exact Hlo|].
    replace (a - b - 1 + 1) with (a - b) by lia.
    apply Qnot_le_lt. intros Hn. apply Qle_bool_iff in Hn. congruence.
Qed.


Lemma ilog2_mono (x y : Q) : (0 < x)%Q -> (x <= y)%Q -> ilog2 x <= ilog2 y.
Proof.
  intros Hx Hxy.
  destruct (ilog2_spec x Hx) as [H1 _].
  destruct (ilog2_spec y) as [_ H2]; [lra|].
  assert (ilog2 x < ilog2 y + 1) by (apply two_pow_lt_inv; lra).
  lia.
Qed.

Lemma rnd64_eq (x : Q) :
  (rnd64 x == inject_Z (rne (x / 2 ^ fexp (ilog2 (Qabs x)))) * 2 ^ fexp (ilog2 (Qabs x)))%Q.
Proof. unfold rnd64. apply Qred_correct. Qed.

(** Rounding at unit [2^u] never crosses a power of two [2^k] with [u <= k]. *)
Lemma round_at_le_pow (x : Q) (u k : Z) :
  u <= k -> (x <= 2 ^ k)%Q -> (inject_Z (rne (x / 2 ^ u)) * 2 ^ u <= 2 ^ k)%Q.
Proof.
  intros Huk Hx. pose proof (two_pow_pos u) as Hu.
  assert (rne (x / 2 ^ u) <= 2 ^ (k - u))%Z as Hr.
  { apply rne_le_Z. rewrite <- two_pow_inject by lia. rewrite two_pow_sub.
    apply Qmult_le_compat_r; [exact Hx|]. apply Qlt_le_weak, Qinv_lt_0_compat, Hu. }
  rewrite Zle_Qle, <- two_pow_inject, two_pow_sub in Hr by lia.
  apply Qle_trans with (2 ^ k / 2 ^ u * 2 ^ u)%Q.
  - apply Qmult_le_compat_r; [exact Hr | lra].
  - apply Qle_lteq. right. field. lra.
Qed.

Lemma round_at_ge_pow (x : Q) (u k : Z) :
  u <= k -> (2 ^ k <= x)%Q -> (2 ^ k <= inject_Z (rne (x / 2 ^ u)) * 2 ^ u)%Q.
Proof.
  intros Huk Hx. pose proof (two_pow_pos u) as Hu.
  assert (2 ^ (k - u) <= rne (x / 2 ^ u))%Z as Hr.
  { apply rne_ge_Z. rewrite <- two_pow_inject by lia. rewrite two_pow_sub.
    apply Qmult_le_compat_r; [exact Hx|]. apply Qlt_le_weak, Qinv_lt_0_compat, Hu. }
  rewrite Zle_Qle, <- two_pow_inject, two_pow_sub in Hr by lia.
  apply Qle_trans with (2 ^ k / 2 ^ u * 2 ^ u)%Q.
  - apply Qle_lteq. right. field. lra.
  - apply Qmult_le_compat_r; [exact Hr | lra].
Qed.

Lemma Qabs_of_nonneg (x : Q) : (0 <= x)%Q -> Qabs x = x.
Proof.
  destruct x as [p d]. unfold Qle. simpl. intros H.
  rewrite Z.abs_eq by lia. reflexivity.
Qed.

Lemma rnd64_zero (x : Q) : (x == 0)%Q -> (rnd64 x == 0)%Q.
Proof.
  intros Hx. rewrite rnd64_eq. set (u := fexp _).
  rewrite (rne_comp _ (inject_Z 0)).
  - rewrite rne_inject_Z. ring.
  - rewrite Hx. unfold Qdiv. ring.
Qed.

Lemma rnd64_nonneg (x : Q) : (0 <= x)%Q -> (0 <= rnd64 x)%Q.
Proof.
  intros Hx. rewrite rnd64_eq.
  set (u := fexp _). pose proof (two_pow_pos u) as Hu.
  apply Qmult_le_0_compat; [|lra].
  change 0%Q with (inject_Z 0). rewrite <- Zle_Qle. apply rne_ge_Z.
  apply Qle_shift_div_l; [exact Hu|]. now rewrite Qmult_0_l.
Qed.

Lemma fexp_mono (a b : Z) : a <= b -> fexp a <= fexp b.
Proof. unfold fexp. lia. Qed.

Lemma rnd64_mono_pos (x y : Q) :
  (0 < x)%Q -> (x <= y)%Q -> (rnd64 x <= rnd64 y)%Q.
Proof.
  intros Hx Hxy. assert (0 < y)%Q as Hy by lra.
  rewrite !rnd64_eq.
  rewrite (Qabs_of_nonneg x), (Qabs_of_nonneg y) by lra.
  pose proof (ilog2_mono x y Hx Hxy) as He.
  destruct (ilog2_spec x Hx) as [_ Hx2].
  destruct (ilog2_spec y Hy) as [Hy1 _].
  set (ex := ilog2 x) in *. set (ey := ilog2 y) in *.
  destruct (Z.eq_dec (fexp ex) (fexp ey)) as [Heq|Hne].
  - rewrite Heq. pose proof (two_pow_pos (fexp ey)) as Hu.
    apply Qmult_le_compat_r; [|lra].
    rewrite <- Zle_Qle. apply rne_mono.
    apply Qmult_le_compat_r; [exact Hxy|]. apply Qlt_le_weak, Qinv_lt_0_compat, Hu.
  - assert (fexp ex < fexp ey /\ fexp ey = ey - 52 /\ ex + 1 <= ey) as (Hlt & Hey & Hex)
      by (unfold fexp in *; lia).
    apply Qle_trans with (2 ^ ey)%Q.
    + apply round_at_le_pow; [lia|].
      apply Qle_trans with (2 ^ (ex + 1))%Q; [lra | now apply two_pow_le].
    + apply round_at_ge_pow; [lia | exact Hy1].
Qed.

Lemma rnd64_mono (x y : Q) :
  (0 <= x)%Q -> (x <= y)%Q -> (rnd64 x <= rnd64 y)%Q.
Proof.
  intros Hx Hxy.
  destruct (Qlt_le_dec 0 x) as [Hpos|Hneg].
  - now apply rnd64_mono_pos.
  - rewrite (rnd64_zero x) by lra. apply rnd64_nonneg. lra.
Qed.

(** A value that is a multiple of its own unit in the last place is kept. *)
Lemma rnd64_exact (x : Q) (m k : Z) :
  (0 < x)%Q -> (x == inject_Z m * 2 ^ k)%Q -> fexp (ilog2 x) <= k ->
  (rnd64 x == x)%Q.
Proof.
  intros Hx Hm Hk. rewrite rnd64_eq, (Qabs_of_nonneg x) by lra.
  set (u := fexp (ilog2 x)) in *. pose proof (two_pow_pos u) as Hu.
  rewrite (rne_comp _ (inject_Z (m * 2 ^ (k - u)))).
  - rewrite rne_inject_Z, inject_Z_mult, <- two_pow_inject by lia.
    rewrite Hm, two_pow_sub. field. lra.
  - rewrite inject_Z_mult, <- two_pow_inject by lia.
    rewrite Hm, two_pow_sub. field. lra.
Qed.

(* ================================================================== *)
(** ** The connectivity prober *)

Lemma probe_internet_run (w : World) (tests : list pyval) :
  probe_internet w tests = Ok (tests ++ [internet_entry w]).
Proof.
  unfold probe_internet, internet_entry, http_json.
  destruct (urlopen_text w _ 10) as [body|e]; cbn; [|reflexivity].
  destruct (json_loads w body); reflexivity.
Qed.

Lemma str_truthy_true (o : option string) :
  str_truthy o = true <-> exists s, o = Some s /\ s <> "".
Proof.
  destruct o as [s|]; cbn.
  - rewrite negb_true_iff, String.eqb_neq. split; [eauto|].
    now intros (s' & [= ->] & Hs).
  - split; [discriminate | now intros (s & [=] & _)].
Qed.

Lemma str_truthy_false (o : option string) :
  str_truthy o = false <-> o = None \/ o = Some "".
Proof.
  destruct o as [s|]; cbn.
  - rewrite negb_false_iff, String.eqb_eq. split; [intros ->; now right|].
    now intros [[=] | [= ->]].
  - split; [now left | reflexivity].
Qed.

Lemma probe_ecs_metadata_skip (w : World) (tests : list pyval) :
  str_truthy (environ w !! metadata_var) = false ->
  probe_ecs_metadata w tests = Ok tests.
Proof.
  unfold probe_ecs_metadata, metadata_var. now intros ->.
Qed.

Lemma probe_ecs_metadata_run (w : World) (tests : list pyval) (base : string) :
  environ w !! metadata_var = Some base -> base <> "" ->
  probe_ecs_metadata w tests = Ok (tests ++ [metadata_entry w base]).
Proof.
  intros Henv Hne.
  assert (str_truthy (Some base) = true) as Ht
    by (apply str_truthy_true; eauto).
  unfold probe_ecs_metadata, metadata_entry, http_json.
  unfold metadata_var in Henv. rewrite Henv, Ht. cbn [default].
  destruct (urlopen_text w _ 5) as [body|e]; cbn; [|reflexivity].
  destruct (json_loads w body) as [v|e]; cbn; [|reflexivity].
  destruct v; reflexivity.
Qed.

Lemma test_connectivity_skip (w : World) :
  str_truthy (environ w !! metadata_var) = false ->
  test_connectivity w = Ok [internet_entry w].
Proof.
  intros H. unfold test_connectivity. rewrite probe_internet_run. cbn.
  now rewrite probe_ecs_metadata_skip.
Qed.

Lemma test_connectivity_run (w : World) (base : string) :
  environ w !! metadata_var = Some base -> base <> "" ->
  test_connectivity w = Ok [internet_entry w; metadata_entry w base].
Proof.
  intros Henv Hne. unfold test_connectivity. rewrite probe_internet_run. cbn.
  now rewrite (probe_ecs_metadata_run _ _ base).
Qed.

Lemma internet_entry_name (w : World) :
  field (internet_entry w) "test" = Some (VStr "internet_connectivity").
Proof. unfold internet_entry. destruct (http_json w _ _); reflexivity. Qed.

Lemma internet_entry_is_entry (w : World) : is_entry (internet_entry w).
Proof.
  unfold is_entry, internet_entry. destruct (http_json w _ _); cbn; eauto.
Qed.

Lemma metadata_entry_name (w : World) (base : string) :
  field (metadata_entry w base) "test" = Some (VStr "ecs_metadata").
Proof.
  unfold metadata_entry. destruct (http_json w _ _) as [[]|]; reflexivity.
Qed.

Lemma metadata_entry_is_entry (w : World) (base : string) :
  is_entry (metadata_entry w base).
Proof.
  unfold is_entry, metadata_entry.
  destruct (http_json w _ _) as [[]|]; cbn; eauto.
Qed.

Lemma metadata_entry_status (w : World) (base : string) :
  (task_metadata_object w base /\
   field (metadata_entry w base) "status" = Some (VStr "success")) \/
  (~ task_metadata_object w base /\
   field (metadata_entry w base) "status" = Some (VStr "failed")).
Proof.
  unfold task_metadata_object, metadata_entry.
  destruct (http_json w _ _) as [[]|];
    try (right; split; [intros [d [=]] | reflexivity]).
  left. split; [eauto | reflexivity].
Qed.

(** The prober returns, and what it returns are entries. *)
Lemma test_connectivity_total (w : World) :
  exists tests, test_connectivity w = Ok tests /\ Forall is_entry tests.
Proof.
  destruct (str_truthy (environ w !! metadata_var)) eqn:Ht.
  - apply str_truthy_true in Ht as (base & Henv & Hne).
    eexists. split; [exact (test_connectivity_run w base Henv Hne)|].
    repeat constructor;
      [apply internet_entry_is_entry | apply metadata_entry_is_entry].
  - eexists. split; [exact (test_connectivity_skip w Ht)|].
    repeat constructor. apply internet_entry_is_entry.
Qed.

(* ================================================================== *)
(** ** The aggregator's success flag *)

Lemma all_status_success_forallb (tests : list pyval) :
  Forall is_entry tests ->
  all_status_success tests = Ok (forallb entry_succeeded tests).
Proof.
  induction 1 as [|t rest [v Hv] _ IH]; [reflexivity|].
  cbn [all_status_success forallb]. unfold entry_succeeded. rewrite Hv.
  destruct t; try discriminate. cbn in Hv |- *. rewrite Hv. cbn.
  destruct (py_eq_str v "success"); [exact IH | reflexivity].
Qed.

(** C1. Whenever the flow returns a summary, its [validation_success] is the
    conjunction of [status == "success"] over the entries the prober
    returned, which the summary carries as [connectivity_tests]; the
    aggregating expression gives [True] on an empty sequence and the
    conjunction on every sequence of entries. *)
Theorem validation_success_is_conjunction (w : World) (summary : pyval) :
  validation_flow w = Ok summary ->
  (exists tests,
      test_connectivity w = Ok tests /\
      field summary "connectivity_tests" = Some (VList tests) /\
      field summary "validation_success"
        = Some (VBool (forallb entry_succeeded tests))) /\
  all_status_success [] = Ok true /\
  (forall tests, Forall is_entry tests ->
     all_status_success tests = Ok (forallb entry_succeeded tests)).
Proof.
  intros Hrun.
  split; [|split; [reflexivity | exact all_status_success_forallb]].
  destruct (test_connectivity_total w) as (tests & Htests & Hentries).
  unfold validation_flow in Hrun. cbn in Hrun.
  rewrite Htests in Hrun. cbn in Hrun.
  destruct (check_resources w) as [r|e]; cbn in Hrun; [|discriminate].
  rewrite (all_status_success_forallb tests Hentries) in Hrun. cbn in Hrun.
  injection Hrun as <-. exists tests.
  split; [exact Htests | split; reflexivity].
Qed.

Lemma validation_success_is_conjunction_witness :
  (exists tests,
      test_connectivity world_ecs = Ok tests /\
      field summary_ecs "connectivity_tests" = Some (VList tests) /\
      field summary_ecs "validation_success"
        = Some (VBool (forallb entry_succeeded tests))) /\
  all_status_success [] = Ok true /\
  (forall tests, Forall is_entry tests ->
     all_status_success tests = Ok (forallb entry_succeeded tests)).
Proof.
  apply (validation_success_is_conjunction world_ecs summary_ecs).
  vm_compute. reflexivity.
Defined.

(** C2, as stated, fails twice.  With the variable exported but empty the
    prober returns one entry, not two; and with the variable set and an
    exchange that raises nothing but yields a JSON array, the second entry is
    "failed". *)
Lemma endpoint_set_counterexample :
  (environ world_empty_uri !! metadata_var = Some "" /\
   test_connectivity world_empty_uri
     = Ok [success_entry "internet_connectivity"
             (VDict [("origin", VStr "1.2.3.4")])] /\
   ~ (exists e1 e2, test_connectivity world_empty_uri = Ok [e1; e2])) /\
  (environ world_list_body !! metadata_var
     = Some "http://169.254.170.2/v4/abc" /\
   http_json world_list_body "http://169.254.170.2/v4/abc/task" 5
     = Ok (VList []) /\
   test_connectivity world_list_body
     = Ok [success_entry "internet_connectivity"
             (VDict [("origin", VStr "1.2.3.4")]);
           failed_entry "ecs_metadata"
             (Exn "AttributeError"
                "'list' object has no attribute 'get'")]).
Proof.
  assert (test_connectivity world_empty_uri
          = Ok [success_entry "internet_connectivity"
                  (VDict [("origin", VStr "1.2.3.4")])]) as Hone
    by (vm_compute; reflexivity).
  repeat split; try (vm_compute; reflexivity).
  intros (e1 & e2 & Htwo). rewrite Hone in Htwo. discriminate.
Qed.

(** C2, amended.  The prober returns exactly the internet entry when the
    endpoint variable is unset or empty.  When it is set to a non-empty
    string it returns two entries, the second named "ecs_metadata"; that
    entry is "failed" exactly when the exchange with [<base>/task] does not
    yield a JSON object (the GET, the read or the parse raises, or the body
    parses to something else), and "success" otherwise. *)
Theorem probe_count_by_endpoint (w : World) :
  field (internet_entry w) "test" = Some (VStr "internet_connectivity") /\
  (environ w !! metadata_var = None \/ environ w !! metadata_var = Some "" ->
   test_connectivity w = Ok [internet_entry w]) /\
  (forall base,
     environ w !! metadata_var = Some base -> base <> "" ->
     exists e2,
       test_connectivity w = Ok [internet_entry w; e2] /\
       field e2 "test" = Some (VStr "ecs_metadata") /\
       (field e2 "status" = Some (VStr "failed")
        <-> ~ task_metadata_object w base) /\
       (field e2 "status" = Some (VStr "success")
        <-> task_metadata_object w base)).
Proof.
  split; [apply internet_entry_name|]. split.
  - intros H. apply test_connectivity_skip. now apply str_truthy_false.
  - intros base Henv Hne. exists (metadata_entry w base).
    split; [now apply test_connectivity_run|].
    split; [apply metadata_entry_name|].
    destruct (metadata_entry_status w base) as [[Hobj ->] | [Hnot ->]];
      split; split; intros; try discriminate; try reflexivity;
      try assumption; contradiction.
Qed.


(** C4. When one of the three sampling calls raises, the resource sampler
    raises that same exception, and so does the entry point: no summary is
    returned. *)
Theorem sampling_error_propagates (w : World) (e : exn) :
  sampling_raises w e ->
  check_resources w = Raise e /\
  validation_flow w = Raise e /\
  (forall summary, validation_flow w <> Ok summary).
Proof.
  intros Hraise.
  assert (check_resources w = Raise e) as Hcheck.
  { unfold check_resources.
    destruct Hraise as [Hcpu | cpu Hcpu Hmem | cpu memory Hcpu Hmem Hdisk].
    - now rewrite Hcpu.
    - rewrite Hcpu. cbn. now rewrite Hmem.
    - rewrite Hcpu. cbn. rewrite Hmem. cbn. now rewrite Hdisk. }
  assert (validation_flow w = Raise e) as Hflow.
  { destruct (test_connectivity_total w) as (tests & Htests & _).
    unfold validation_flow. cbn. rewrite Htests. cbn. now rewrite Hcheck. }
  repeat split; [exact Hcheck | exact Hflow |].
  intros summary. rewrite Hflow. discriminate.
Qed.

Lemma sampling_error_propagates_witness :
  check_resources world_disk_error
    = Raise (Exn "FileNotFoundError"
               "[Errno 2] No such file or directory: '/'") /\
  validation_flow world_disk_error
    = Raise (Exn "FileNotFoundError"
               "[Errno 2] No such file or directory: '/'") /\
  (forall summary, validation_flow world_disk_error <> Ok summary).
Proof.
  apply (sampling_error_propagates world_disk_error).
  eapply disk_raises; reflexivity.
Defined.


(** C7. With the endpoint variable set to [base] and the exchange with
    [<base>/task] yielding [{"TaskARN":"a","Cluster":"c","Family":"f"}], the
    second entry is "success" and its payload is exactly
    [{"task_arn":"a","cluster":"c","family":"f"}]. *)
Theorem task_metadata_payload (w : World) (base : string) :
  environ w !! metadata_var = Some base -> base <> "" ->
  http_json w (base +:+ "/task") 5
    = Ok (VDict [("TaskARN", VStr "a"); ("Cluster", VStr "c");
                 ("Family", VStr "f")]) ->
  exists e1 e2,
    test_connectivity w = Ok [e1; e2] /\
    field e2 "test" = Some (VStr "ecs_metadata") /\
    field e2 "status" = Some (VStr "success") /\
    field e2 "result"
      = Some (VDict [("task_arn", VStr "a"); ("cluster", VStr "c");
                     ("family", VStr "f")]).
Proof.
  intros Henv Hne Hjson.
  exists (internet_entry w), (metadata_entry w base).
  split; [now apply test_connectivity_run|].
  unfold metadata_entry. rewrite Hjson. repeat split; reflexivity.
Qed.

Lemma task_metadata_payload_witness :
  exists e1 e2,
    test_connectivity world_ecs = Ok [e1; e2] /\
    field e2 "test" = Some (VStr "ecs_metadata") /\
    field e2 "status" = Some (VStr "success") /\
    field e2 "result"
      = Some (VDict [("task_arn", VStr "a"); ("cluster", VStr "c");
                     ("family", VStr "f")]).
Proof.
  apply (task_metadata_payload world_ecs "http://169.254.170.2/v4/abc").
  - vm_compute. reflexivity.
  - discriminate.
  - vm_compute. reflexivity.
Defined.

(** C9. With the endpoint variable set to the empty string the prober
    returns the internet entry alone, the same result as in the world where
    the variable is removed. *)
Theorem empty_endpoint_skips_probe (w : World) :
  environ w !! metadata_var = Some "" ->
  test_connectivity w = Ok [internet_entry w] /\
  field (internet_entry w) "test" = Some (VStr "internet_connectivity") /\
  environ (unsetenv metadata_var w) !! metadata_var = None /\
  test_connectivity w = test_connectivity (unsetenv metadata_var w).
Proof.
  intros Henv.
  assert (environ (unsetenv metadata_var w) !! metadata_var = None) as Hunset
    by apply lookup_delete_eq.
  rewrite (test_connectivity_skip w), (test_connectivity_skip (unsetenv _ w)).
  - repeat split; [apply internet_entry_name | exact Hunset].
  - now rewrite Hunset.
  - now rewrite Henv.
Qed.

Lemma empty_endpoint_skips_probe_witness :
  test_connectivity world_empty_uri = Ok [internet_entry world_empty_uri] /\
  field (internet_entry world_empty_uri) "test"
    = Some (VStr "internet_connectivity") /\
  environ (unsetenv metadata_var world_empty_uri) !! metadata_var = None /\
  test_connectivity world_empty_uri
    = test_connectivity (unsetenv metadata_var world_empty_uri).
Proof.
  apply (empty_endpoint_skips_probe world_empty_uri).
  vm_compute. reflexivity.
Defined.

(** C10. With the endpoint variable set to [base] and the exchange with
    [<base>/task] yielding any JSON object, the second entry is "success";
    each payload value is the object's value for the key, and [None] when the
    object lacks the key. *)
Theorem missing_keys_are_null
  (w : World) (base : string) (d : list (string * pyval)) :
  environ w !! metadata_var = Some base -> base <> "" ->
  http_json w (base +:+ "/task") 5 = Ok (VDict d) ->
  exists e1 task_arn cluster family,
    test_connectivity w
      = Ok [e1;
            VDict [("test", VStr "ecs_metadata"); ("status", VStr "success");
                   ("result", VDict [("task_arn", task_arn);
                                     ("cluster", cluster);
                                     ("family", family)])]] /\
    task_arn = match dict_lookup "TaskARN" d with Some v => v | None => VNone end /\
    cluster = match dict_lookup "Cluster" d with Some v => v | None => VNone end /\
    family = match dict_lookup "Family" d with Some v => v | None => VNone end.
Proof.
  intros Henv Hne Hjson.
  exists (internet_entry w). do 3 eexists.
  split; [|repeat split; reflexivity].
  rewrite (test_connectivity_run w base Henv Hne).
  unfold metadata_entry. rewrite Hjson. reflexivity.
Qed.

Lemma missing_keys_are_null_witness :
  exists e1 task_arn cluster family,
    test_connectivity world_bare_object
      = Ok [e1;
            VDict [("test", VStr "ecs_metadata"); ("status", VStr "success");
                   ("result", VDict [("task_arn", task_arn);
                                     ("cluster", cluster);
                                     ("family", family)])]] /\
    task_arn = VNone /\ cluster = VNone /\ family = VNone.
Proof.
  apply (missing_keys_are_null world_bare_object "http://169.254.170.2/v4/abc"
           [("Revision", VStr "7")]).
  - vm_compute. reflexivity.
  - discriminate.
  - vm_compute. reflexivity.
Defined.

(* ================================================================== *)
(** ** The resource sampler *)

Lemma overflows_bounded (r : Q) :
  (0 <= r)%Q -> (r <= 100)%Q -> overflows r = false.
Proof.
  intros H0 H100. unfold overflows. rewrite (Qabs_of_nonneg r H0).
  destruct (Qle_bool (2 ^ 1024) r) eqn:Hc; [|reflexivity].
  apply Qle_bool_iff in Hc.
  assert (2 ^ 7 <= 2 ^ 1024)%Q as Hp by (apply two_pow_le; lia).
  assert (2 ^ 7 == 128)%Q as H7 by reflexivity.
  exfalso. lra.
Qed.

Lemma py_truediv_ok (a b : Z) (x : pyfloat) :
  py_truediv a b = Ok x ->
  b <> 0 /\ x = FFinite (rnd64 (inject_Z a / inject_Z b)).
Proof.
  unfold py_truediv. destruct (Z.eqb_spec b 0) as [|Hb]; [discriminate|].
  destruct (overflows _); [discriminate|]. now intros [= <-].
Qed.

Lemma py_round_finite (q : Q) (ndigits : Z) (x : pyfloat) :
  py_round (FFinite q) ndigits = Ok x ->
  x = FFinite (rnd64 (decimal_round ndigits q)).
Proof.
  unfold py_round, decimal_round.
  destruct (overflows _); [discriminate|]. now intros [= <-].
Qed.

Lemma round_div2_ok (a b : Z) (x : pyfloat) :
  round_div2 a b = Ok x ->
  b <> 0 /\
  x = FFinite (rnd64 (decimal_round 2 (rnd64 (inject_Z a / inject_Z b)))).
Proof.
  unfold round_div2. destruct (py_truediv a b) as [y|e] eqn:Hdiv; [|discriminate].
  apply py_truediv_ok in Hdiv as [Hb ->]. cbn [mbind result_bind].
  intros H. apply py_round_finite in H. now split.
Qed.

Lemma decimal_round_2 (q : Q) :
  (decimal_round 2 q == inject_Z (rne (q * 100)) / 100)%Q.
Proof. reflexivity. Qed.


Lemma decimal_round_nonneg (q : Q) :
  (0 <= q)%Q -> (0 <= decimal_round 2 q)%Q.
Proof.
  intros H. rewrite decimal_round_2.
  apply Qle_shift_div_l; [reflexivity|]. rewrite Qmult_0_l.
  change 0%Q with (inject_Z 0). rewrite <- Zle_Qle.
  apply rne_ge_Z. change (inject_Z 0) with 0%Q. lra.
Qed.

Lemma decimal_round_le_100 (q : Q) :
  (q <= 100)%Q -> (decimal_round 2 q <= 100)%Q.
Proof.
  intros H. rewrite decimal_round_2.
  apply Qle_shift_div_r; [reflexivity|].
  change (100 * 100)%Q with (inject_Z 10000). rewrite <- Zle_Qle.
  apply rne_le_Z. change (inject_Z 10000) with 10000%Q. lra.
Qed.

Lemma decimal_round_near (q : Q) :
  (Qabs (inject_Z (rne (q * 100)) / 100 - q) <= 1 # 200)%Q.
Proof.
  pose proof (rne_near (q * 100)) as H.
  apply Qabs_Qle_condition in H as [H1 H2].
  set (k := inject_Z (rne (q * 100))) in *.
  unfold Qdiv. change (/ 100)%Q with (1 # 100)%Q.
  apply Qabs_Qle_condition. split; lra.
Qed.

Lemma rnd64_100 : rnd64 100 = 100%Q.
Proof. vm_compute. reflexivity. Qed.

Lemma rnd64_1 : rnd64 1 = 1%Q.
Proof. vm_compute. reflexivity. Qed.

Lemma rnd64_le_100 (q : Q) : (0 <= q)%Q -> (q <= 100)%Q -> (rnd64 q <= 100)%Q.
Proof.
  intros H0 H. apply Qle_trans with (rnd64 100).
  - now apply rnd64_mono.
  - rewrite rnd64_100. apply Qle_refl.
Qed.

Lemma inject_Z_of_N_nonneg (n : N) : (0 <= inject_Z (Z.of_N n))%Q.
Proof. change 0%Q with (inject_Z 0). rewrite <- Zle_Qle. lia. Qed.





(** What a returning [check_resources] has computed. *)
Lemma check_resources_inv (w : World) (r : pyval) :
  check_resources w = Ok r ->
  exists cpu memory disk disk_percent,
    cpu_percent w 1 = Ok cpu /\
    virtual_memory w = Ok memory /\
    disk_usage w "/" = Ok disk /\
    disk_total disk <> 0%N /\
    py_round
      (py_fmul
         (FFinite (rnd64 (inject_Z (Z.of_N (disk_used disk))
                          / inject_Z (Z.of_N (disk_total disk)))))
         (FFinite 100)) 2 = Ok disk_percent /\
    r = VDict [
      ("cpu_percent", VFloat cpu);
      ("memory_total_gb", VFloat (FFinite (gb_rounded (mem_total memory))));
      ("memory_used_gb", VFloat (FFinite (gb_rounded (mem_used memory))));
      ("memory_percent", VFloat (mem_percent memory));
      ("disk_total_gb", VFloat (FFinite (gb_rounded (disk_total disk))));
      ("disk_used_gb", VFloat (FFinite (gb_rounded (disk_used disk))));
      ("disk_percent", VFloat disk_percent)
    ].
Proof.
  unfold check_resources. intros H.
  bind_inv H cpu Hcpu. bind_inv H memory Hmem. bind_inv H disk Hdisk.
  bind_inv H mt Hmt. bind_inv H mu Hmu. bind_inv H dt Hdt. bind_inv H du Hdu.
  bind_inv H ratio Hratio. bind_inv H dp Hdp.
  injection H as <-.
  apply round_div2_ok in Hmt as [_ ->], Hmu as [_ ->],
      Hdt as [_ ->], Hdu as [_ ->].
  apply py_truediv_ok in Hratio as [Htotal ->].
  exists cpu, memory, disk, dp.
  split; [reflexivity|]. split; [reflexivity|]. split; [reflexivity|].
  split; [lia|]. split; [exact Hdp|].
  unfold gb_rounded, bytes_to_gb. reflexivity.
Qed.









(* ================================================================== *)
(** * Further properties of the flow *)

(** ** The aggregator as a composition *)

Lemma validation_flow_ok (w : World) (tests : list pyval) (r : pyval) :
  test_connectivity w = Ok tests -> check_resources w = Ok r ->
  exists info,
    get_system_info w = Ok info /\
    validation_flow w = Ok (summary_of w info tests r).
Proof.
  intros Htests Hres.
  destruct (test_connectivity_total w) as (tests' & Htests' & Hentries).
  rewrite Htests in Htests'. injection Htests' as <-.
  eexists. split; [reflexivity|].
  unfold validation_flow. cbn. rewrite Htests. cbn. rewrite Hres. cbn.
  rewrite (all_status_success_forallb tests Hentries). reflexivity.
Qed.

Lemma validation_flow_raise (w : World) (e : exn) :
  check_resources w = Raise e -> validation_flow w = Raise e.
Proof.
  intros Hres. destruct (test_connectivity_total w) as (tests & Htests & _).
  unfold validation_flow. cbn. rewrite Htests. cbn. now rewrite Hres.
Qed.

Lemma validation_flow_inv (w : World) (summary : pyval) :
  validation_flow w = Ok summary ->
  exists info tests r,
    get_system_info w = Ok info /\ test_connectivity w = Ok tests /\
    check_resources w = Ok r /\ summary = summary_of w info tests r.
Proof.
  intros Hrun.
  destruct (test_connectivity_total w) as (tests & Htests & _).
  destruct (check_resources w) as [r|e] eqn:Hres.
  - destruct (validation_flow_ok w tests r Htests Hres) as (info & Hinfo & Hflow).
    rewrite Hflow in Hrun. injection Hrun as <-.
    now exists info, tests, r.
  - rewrite (validation_flow_raise w e Hres) in Hrun. discriminate.
Qed.


(** ** What the success flag says about the world *)

Lemma internet_entry_succeeded (w : World) :
  entry_succeeded (internet_entry w) = true <-> internet_reachable w.
Proof.
  unfold internet_entry, internet_reachable.
  destruct (http_json w _ _) as [v|e]; cbn.
  - split; [eauto | reflexivity].
  - split; [discriminate | now intros [v [=]]].
Qed.

Lemma metadata_entry_succeeded (w : World) (base : string) :
  entry_succeeded (metadata_entry w base) = true <-> task_metadata_object w base.
Proof.
  unfold entry_succeeded.
  destruct (metadata_entry_status w base) as [[Hobj ->] | [Hnot ->]]; cbn.
  - split; [now intros _ | reflexivity].
  - split; [discriminate | intros H; contradiction].
Qed.

Lemma connectivity_all_succeeded (w : World) (tests : list pyval) :
  test_connectivity w = Ok tests ->
  forallb entry_succeeded tests = true
  <-> internet_reachable w /\ endpoint_satisfied w.
Proof.
  intros Htests. unfold endpoint_satisfied.
  destruct (str_truthy (environ w !! metadata_var)) eqn:Ht.
  - apply str_truthy_true in Ht as (base & Henv & Hne).
    rewrite (test_connectivity_run w base Henv Hne) in Htests.
    injection Htests as <-. rewrite Henv. cbn.
    rewrite andb_true_r, andb_true_iff.
    rewrite internet_entry_succeeded, metadata_entry_succeeded.
    split; [intros [Hi Hm]; auto | intros [Hi [He | Hm]]; [contradiction | auto]].
  - rewrite (test_connectivity_skip w Ht) in Htests.
    injection Htests as <-. cbn. rewrite andb_true_r.
    rewrite internet_entry_succeeded.
    apply str_truthy_false in Ht as [-> | ->]; split; intros; intuition.
Qed.

(** X2. When the flow returns, [validation_success] is [True] exactly when
    the internet exchange yields a JSON value and the metadata endpoint is
    unset, empty, or answers with a JSON object; otherwise it is [False]. *)
Theorem validation_success_meaning (w : World) (summary : pyval) :
  validation_flow w = Ok summary ->
  (field summary "validation_success" = Some (VBool true)
   <-> internet_reachable w /\ endpoint_satisfied w) /\
  (field summary "validation_success" = Some (VBool false)
   <-> ~ (internet_reachable w /\ endpoint_satisfied w)).
Proof.
  intros Hrun.
  apply validation_flow_inv in Hrun as (info & tests & r & _ & Htests & _ & ->).
  pose proof (connectivity_all_succeeded w tests Htests) as Hall.
  cbn. destruct (forallb entry_succeeded tests).
  - split; split; intros; try discriminate; try reflexivity.
    + now apply Hall.
    + exfalso. apply H. now apply Hall.
  - split; split; intros; try discriminate; try reflexivity.
    + apply Hall in H. discriminate.
    + intros H'. apply Hall in H'. discriminate.
Qed.

Lemma validation_success_meaning_witness :
  (field summary_ecs "validation_success" = Some (VBool true)
   <-> internet_reachable world_ecs /\ endpoint_satisfied world_ecs) /\
  (field summary_ecs "validation_success" = Some (VBool false)
   <-> ~ (internet_reachable world_ecs /\ endpoint_satisfied world_ecs)).
Proof.
  apply (validation_success_meaning world_ecs summary_ecs).
  vm_compute. reflexivity.
Defined.

(** ** Locality of the probes *)

(** X3. Each probe's entry depends on its own exchange only.  Two worlds
    with the same internet exchange get the same first entry, whatever the
    metadata endpoint does; two worlds with the same endpoint variable and
    the same exchange with [<base>/task] get the same second entry (or both
    none), whatever the internet exchange does. *)
Theorem probes_are_local (w1 w2 : World) (tests1 tests2 : list pyval) :
  test_connectivity w1 = Ok tests1 ->
  test_connectivity w2 = Ok tests2 ->
  (http_json w1 "https://httpbin.org/ip" 10
   = http_json w2 "https://httpbin.org/ip" 10 ->
   tests1 !! 0%nat = tests2 !! 0%nat) /\
  (environ w1 !! metadata_var = environ w2 !! metadata_var ->
   (forall base, environ w1 !! metadata_var = Some base ->
      http_json w1 (base +:+ "/task") 5 = http_json w2 (base +:+ "/task") 5) ->
   tests1 !! 1%nat = tests2 !! 1%nat).
Proof.
  intros H1 H2.
  assert (forall w tests, test_connectivity w = Ok tests ->
            tests !! 0%nat = Some (internet_entry w) /\
            tests !! 1%nat
            = match environ w !! metadata_var with
              | Some base =>
                  if String.eqb base "" then None
                  else Some (metadata_entry w base)
              | None => None
              end) as Hshape.
  { intros w tests Htests.
    destruct (str_truthy (environ w !! metadata_var)) eqn:Ht.
    - apply str_truthy_true in Ht as (base & Henv & Hne).
      rewrite (test_connectivity_run w base Henv Hne) in Htests.
      injection Htests as <-. rewrite Henv.
      apply String.eqb_neq in Hne. rewrite Hne. now split.
    - rewrite (test_connectivity_skip w Ht) in Htests.
      injection Htests as <-.
      apply str_truthy_false in Ht as [-> | ->]; now split. }
  destruct (Hshape w1 tests1 H1) as [Ha1 Hb1].
  destruct (Hshape w2 tests2 H2) as [Ha2 Hb2].
  split.
  - intros Hex. rewrite Ha1, Ha2. unfold internet_entry. now rewrite Hex.
  - intros Henv Hex. rewrite Hb1, Hb2, <- Henv.
    destruct (environ w1 !! metadata_var) as [base|] eqn:Hb; [|reflexivity].
    unfold metadata_entry. now rewrite (Hex base eq_refl).
Qed.

Lemma probes_are_local_witness :
  (http_json world_ecs "https://httpbin.org/ip" 10
   = http_json world_list_body "https://httpbin.org/ip" 10 ->
   [internet_entry world_ecs;
    metadata_entry world_ecs "http://169.254.170.2/v4/abc"] !! 0%nat
   = [internet_entry world_list_body;
      metadata_entry world_list_body "http://169.254.170.2/v4/abc"] !! 0%nat) /\
  (environ world_ecs !! metadata_var = environ world_list_body !! metadata_var ->
   (forall base, environ world_ecs !! metadata_var = Some base ->
      http_json world_ecs (base +:+ "/task") 5
      = http_json world_list_body (base +:+ "/task") 5) ->
   [internet_entry world_ecs;
    metadata_entry world_ecs "http://169.254.170.2/v4/abc"] !! 1%nat
   = [internet_entry world_list_body;
      metadata_entry world_list_body "http://169.254.170.2/v4/abc"] !! 1%nat).
Proof.
  apply (probes_are_local world_ecs world_list_body);
    apply test_connectivity_run; first [reflexivity | discriminate].
Defined.

(** X4. The success flag and the recorded entries do not depend on the
    system information or on the resource sample: two worlds with the same
    endpoint variable and the same HTTP exchanges, in both of which the flow
    returns, carry the same [connectivity_tests] and the same
    [validation_success]. *)
Theorem flag_ignores_resources (w1 w2 : World) (s1 s2 : pyval) :
  environ w1 !! metadata_var = environ w2 !! metadata_var ->
  (forall url timeout, http_json w1 url timeout = http_json w2 url timeout) ->
  validation_flow w1 = Ok s1 ->
  validation_flow w2 = Ok s2 ->
  field s1 "connectivity_tests" = field s2 "connectivity_tests" /\
  field s1 "validation_success" = field s2 "validation_success".
Proof.
  intros Henv Hex Hrun1 Hrun2.
  apply validation_flow_inv in Hrun1 as (i1 & t1 & r1 & _ & Ht1 & _ & ->).
  apply validation_flow_inv in Hrun2 as (i2 & t2 & r2 & _ & Ht2 & _ & ->).
  assert (t1 = t2) as ->; [|now split].
  destruct (str_truthy (environ w1 !! metadata_var)) eqn:Ht.
  - pose proof Ht as Ht'. rewrite Henv in Ht'.
    apply str_truthy_true in Ht as (base & Hb & Hne).
    rewrite (test_connectivity_run w1 base Hb Hne) in Ht1.
    rewrite Henv in Hb.
    rewrite (test_connectivity_run w2 base Hb Hne) in Ht2.
    injection Ht1 as <-. injection Ht2 as <-.
    unfold internet_entry, metadata_entry. now rewrite !Hex.
  - pose proof Ht as Ht'. rewrite Henv in Ht'.
    rewrite (test_connectivity_skip w1 Ht) in Ht1.
    rewrite (test_connectivity_skip w2 Ht') in Ht2.
    injection Ht1 as <-. injection Ht2 as <-.
    unfold internet_entry. now rewrite !Hex.
Qed.

Lemma flag_ignores_resources_witness :
  field summary_ecs "connectivity_tests"
  = field summary_full_disk "connectivity_tests" /\
  field summary_ecs "validation_success"
  = field summary_full_disk "validation_success".
Proof.
  apply (flag_ignores_resources world_ecs world_full_disk).
  - reflexivity.
  - intros url timeout. reflexivity.
  - vm_compute. reflexivity.
  - vm_compute. reflexivity.
Defined.

(** ** The shape of what the prober returns *)

Lemma internet_entry_well_formed (w : World) :
  well_formed_entry (internet_entry w).
Proof.
  unfold well_formed_entry, internet_entry.
  destruct (http_json w _ _) as [v|e]; (split; [eexists; reflexivity|]).
  - left. cbn. eauto.
  - right. cbn. eauto.
Qed.

Lemma metadata_entry_well_formed (w : World) (base : string) :
  well_formed_entry (metadata_entry w base).
Proof.
  unfold well_formed_entry, metadata_entry.
  destruct (http_json w _ _) as [[]|e]; (split; [eexists; reflexivity|]);
    first [left; cbn; now eauto | right; cbn; now eauto].
Qed.

(** X5. In every world the prober returns one or two entries, never none;
    the first is the internet probe's and a second is the metadata probe's;
    each entry names its test and is either "success" with a result and no
    error or "failed" with an error string and no result. *)
Theorem prober_entries_well_formed (w : World) :
  exists first rest,
    test_connectivity w = Ok (first :: rest) /\
    (length rest <= 1)%nat /\
    field first "test" = Some (VStr "internet_connectivity") /\
    Forall (fun t => field t "test" = Some (VStr "ecs_metadata")) rest /\
    Forall well_formed_entry (first :: rest).
Proof.
  destruct (str_truthy (environ w !! metadata_var)) eqn:Ht.
  - apply str_truthy_true in Ht as (base & Henv & Hne).
    exists (internet_entry w), [metadata_entry w base].
    split; [now apply test_connectivity_run|].
    split; [cbn; lia|]. split; [apply internet_entry_name|].
    split.
    + constructor; [apply metadata_entry_name | constructor].
    + constructor; [apply internet_entry_well_formed|].
      constructor; [apply metadata_entry_well_formed | constructor].
  - exists (internet_entry w), [].
    split; [now apply test_connectivity_skip|].
    split; [cbn; lia|]. split; [apply internet_entry_name|].
    split; [constructor|].
    constructor; [apply internet_entry_well_formed | constructor].
Qed.

(* ================================================================== *)
(** ** More on rounding to the nearest double *)

Lemma two_pow_le_inv (a b : Z) : (2 ^ a <= 2 ^ b)%Q -> a <= b.
Proof. intros H. apply (Qpower_le_compat_l_inv 2); [exact H | reflexivity]. Qed.

Lemma ilog2_le_pow (x : Q) (k : Z) :
  (0 < x)%Q -> (x <= 2 ^ k)%Q -> ilog2 x <= k.
Proof.
  intros Hx Hk. destruct (ilog2_spec x Hx) as [Hl _].
  apply two_pow_le_inv. lra.
Qed.

Lemma ilog2_lt_pow (x : Q) (k : Z) :
  (0 < x)%Q -> (x < 2 ^ k)%Q -> ilog2 x < k.
Proof.
  intros Hx Hk. destruct (ilog2_spec x Hx) as [Hl _].
  apply two_pow_lt_inv. lra.
Qed.

Lemma rnd64_le_pow (x : Q) (k : Z) :
  (0 <= x)%Q -> (x <= 2 ^ k)%Q -> -1074 <= k -> (rnd64 x <= 2 ^ k)%Q.
Proof.
  intros H0 Hk Hmin. pose proof (two_pow_pos k) as Hp.
  destruct (Qlt_le_dec 0 x) as [Hpos|Hzero].
  - rewrite rnd64_eq, (Qabs_of_nonneg x H0).
    apply round_at_le_pow; [|exact Hk].
    pose proof (ilog2_le_pow x k Hpos Hk). unfold fexp. lia.
  - rewrite (rnd64_zero x) by lra. lra.
Qed.

Lemma overflows_below (r : Q) (k : Z) :
  (0 <= r)%Q -> (r <= 2 ^ k)%Q -> k < 1024 -> overflows r = false.
Proof.
  intros H0 Hk Hlt. unfold overflows. rewrite (Qabs_of_nonneg r H0).
  destruct (Qle_bool (2 ^ 1024) r) eqn:Hc; [|reflexivity].
  apply Qle_bool_iff in Hc.
  assert (2 ^ k < 2 ^ 1024)%Q
    by (apply Qpower_lt_compat_l; [exact Hlt | reflexivity]).
  exfalso. lra.
Qed.

(** The half-unit error bound of rounding, for values up to [2^k]. *)
Lemma rnd64_error (x : Q) (k : Z) :
  (0 <= x)%Q -> (x <= 2 ^ k)%Q -> -1022 <= k ->
  (Qabs (rnd64 x - x) <= 2 ^ (k - 53))%Q.
Proof.
  intros H0 Hk Hmin. pose proof (two_pow_pos (k - 53)) as HB.
  apply Qabs_Qle_condition.
  destruct (Qlt_le_dec 0 x) as [Hpos|Hzero].
  - rewrite rnd64_eq, (Qabs_of_nonneg x H0).
    pose proof (ilog2_le_pow x k Hpos Hk) as He.
    set (u := fexp (ilog2 x)).
    assert (u <= k - 52) as Hu by (unfold u, fexp; lia).
    pose proof (two_pow_pos u) as HP.
    assert (2 ^ u <= 2 * 2 ^ (k - 53))%Q as HPB.
    { rewrite <- two_pow_succ. apply two_pow_le. lia. }
    pose proof (rne_near (x / 2 ^ u)) as Hn.
    apply Qabs_Qle_condition in Hn as [Hn1 Hn2].
    assert (x / 2 ^ u * 2 ^ u == x)%Q as Hy by (field; lra).
    set (R := inject_Z (rne (x / 2 ^ u))) in *.
    set (y := (x / 2 ^ u)%Q) in *.
    set (P := (2 ^ u)%Q) in *. set (B := (2 ^ (k - 53))%Q) in *.
    split; nra.
  - rewrite (rnd64_zero x) by lra. split; lra.
Qed.

Lemma Qred_idempotent (q : Q) : Qred (Qred q) = Qred q.
Proof. apply Qred_complete, Qred_correct. Qed.

Lemma rnd64_canonical (x : Q) : Qred (rnd64 x) = rnd64 x.
Proof. unfold rnd64. apply Qred_idempotent. Qed.

(** On non-negative arguments [rnd64] respects equality of rationals, and
    gives the same fraction in lowest terms. *)
Lemma rnd64_proper (x y : Q) :
  (0 <= x)%Q -> (x == y)%Q -> rnd64 x = rnd64 y.
Proof.
  intros H0 Hxy.
  rewrite <- (rnd64_canonical x), <- (rnd64_canonical y).
  apply Qred_complete, Qle_antisym; apply rnd64_mono; lra.
Qed.

Lemma Qred_inject_Z (k : Z) : Qred (inject_Z k) = inject_Z k.
Proof.
  unfold Qred, inject_Z.
  pose proof (Z.ggcd_gcd k 1) as Hg.
  pose proof (Z.ggcd_correct_divisors k 1) as Hd.
  destruct (Z.ggcd k 1) as [g [a b]]. cbn in *.
  rewrite Z.gcd_1_r in Hg. subst g. destruct Hd as [Ha Hb].
  rewrite Z.mul_1_l in Ha, Hb. now subst a b.
Qed.

(** Integers below 2^53 are doubles. *)
Lemma rnd64_inject_Z (k : Z) :
  0 <= k < 2 ^ 53 -> rnd64 (inject_Z k) = inject_Z k.
Proof.
  intros [H0 H53].
  transitivity (Qred (inject_Z k)); [|apply Qred_inject_Z].
  rewrite <- (rnd64_canonical (inject_Z k)). apply Qred_complete.
  destruct (Z.eq_dec k 0) as [->|Hne]; [now apply rnd64_zero|].
  assert (0 < inject_Z k)%Q as Hpos
    by (change 0%Q with (inject_Z 0); rewrite <- Zlt_Qlt; lia).
  apply (rnd64_exact _ k 0); [exact Hpos | |].
  - rewrite Qpower_0_r. ring.
  - assert (ilog2 (inject_Z k) < 53) as Hl.
    { apply ilog2_lt_pow; [exact Hpos|].
      rewrite two_pow_inject by lia. now rewrite <- Zlt_Qlt. }
    unfold fexp. lia.
Qed.

Lemma decimal_round_le_Z (q : Q) (m : Z) :
  (q <= inject_Z m)%Q -> (decimal_round 2 q <= inject_Z m)%Q.
Proof.
  intros H. rewrite decimal_round_2.
  apply Qle_shift_div_r; [reflexivity|].
  assert (inject_Z m * 100 == inject_Z (m * 100))%Q as ->
    by (rewrite inject_Z_mult; reflexivity).
  rewrite <- Zle_Qle. apply rne_le_Z.
  rewrite inject_Z_mult. change (inject_Z 100) with 100%Q. lra.
Qed.

Lemma decimal_round_inject_Z (k : Z) :
  (decimal_round 2 (inject_Z k) == inject_Z k)%Q.
Proof.
  rewrite decimal_round_2.
  rewrite (rne_comp _ (inject_Z (k * 100))).
  - rewrite rne_inject_Z, inject_Z_mult. change (inject_Z 100) with 100%Q.
    field.
  - rewrite inject_Z_mult. reflexivity.
Qed.

(* ================================================================== *)
(** ** When the arithmetic of the sampler returns *)

Lemma py_truediv_returns (a b k : Z) :
  b <> 0 ->
  (0 <= inject_Z a / inject_Z b)%Q -> (inject_Z a / inject_Z b <= 2 ^ k)%Q ->
  -1074 <= k < 1024 ->
  py_truediv a b = Ok (FFinite (rnd64 (inject_Z a / inject_Z b))).
Proof.
  intros Hb H0 Hk [Hmin Hmax]. unfold py_truediv.
  destruct (Z.eqb_spec b 0) as [|_]; [contradiction|].
  rewrite (overflows_below _ k); [reflexivity | | | exact Hmax].
  - now apply rnd64_nonneg.
  - now apply rnd64_le_pow.
Qed.

Lemma py_round_returns (q : Q) (k : Z) :
  (0 <= q)%Q -> (q <= 2 ^ k)%Q -> 0 <= k < 1024 ->
  py_round (FFinite q) 2 = Ok (FFinite (rnd64 (decimal_round 2 q))).
Proof.
  intros H0 Hk [Hmin Hmax]. unfold py_round.
  fold (decimal_round 2 q).
  rewrite (overflows_below _ k); [reflexivity | | | exact Hmax].
  - apply rnd64_nonneg. now apply decimal_round_nonneg.
  - apply rnd64_le_pow; [now apply decimal_round_nonneg | | lia].
    rewrite two_pow_inject by lia. apply decimal_round_le_Z.
    now rewrite <- two_pow_inject by lia.
Qed.

Lemma gb_quotient_bounds (n : N) :
  (n < 2 ^ 64)%N ->
  (0 <= inject_Z (Z.of_N n) / inject_Z (1024 ^ 3))%Q /\
  (inject_Z (Z.of_N n) / inject_Z (1024 ^ 3) <= 2 ^ 34)%Q.
Proof.
  intros Hn. split.
  - apply Qle_shift_div_l; [reflexivity|]. rewrite Qmult_0_l.
    apply inject_Z_of_N_nonneg.
  - apply Qle_shift_div_r; [reflexivity|].
    change (2 ^ 34 * inject_Z (1024 ^ 3))%Q with (inject_Z (2 ^ 64)).
    rewrite <- Zle_Qle. lia.
Qed.

Lemma round_div2_gb (n : N) :
  (n < 2 ^ 64)%N ->
  round_div2 (Z.of_N n) (1024 ^ 3) = Ok (FFinite (gb_rounded n)).
Proof.
  intros Hn. destruct (gb_quotient_bounds n Hn) as [H0 H34].
  unfold round_div2, gb_rounded, bytes_to_gb.
  rewrite (py_truediv_returns _ _ 34); [|discriminate | exact H0 | exact H34 | lia].
  cbn [mbind result_bind].
  rewrite (py_round_returns _ 34); [reflexivity | | | lia].
  - now apply rnd64_nonneg.
  - apply rnd64_le_pow; [exact H0 | exact H34 | lia].
Qed.



(* ================================================================== *)
(** ** The sampler on 64-bit counters *)


Lemma check_resources_sampled
  (w : World) (cpu : pyfloat) (memory : svmem) (disk : sdiskusage) :
  cpu_percent w 1 = Ok cpu ->
  virtual_memory w = Ok memory ->
  disk_usage w "/" = Ok disk ->
  counters64 memory disk ->
  check_resources w
  = (ratio ← py_truediv (Z.of_N (disk_used disk)) (Z.of_N (disk_total disk));
     disk_percent ← py_round (py_fmul ratio (FFinite 100)) 2;
     Ok (resource_record cpu memory disk disk_percent)).
Proof.
  intros Hcpu Hmem Hdisk (Hmt & Hmu & Hdt & Hdu).
  unfold check_resources. rewrite Hcpu, Hmem, Hdisk.
  cbn [mbind result_bind].
  rewrite !round_div2_gb by assumption.
  reflexivity.
Qed.

(** X6. A disk of size zero makes the sampler, and with it the entry point,
    raise [ZeroDivisionError]: the percentage [disk.used / disk.total] is
    computed without a guard. *)
Theorem zero_size_disk_raises
  (w : World) (cpu : pyfloat) (memory : svmem) (disk : sdiskusage) :
  cpu_percent w 1 = Ok cpu ->
  virtual_memory w = Ok memory ->
  disk_usage w "/" = Ok disk ->
  counters64 memory disk ->
  disk_total disk = 0%N ->
  check_resources w = Raise (Exn "ZeroDivisionError" "division by zero") /\
  validation_flow w = Raise (Exn "ZeroDivisionError" "division by zero").
Proof.
  intros Hcpu Hmem Hdisk H64 Hzero.
  assert (check_resources w
          = Raise (Exn "ZeroDivisionError" "division by zero")) as Hres.
  { rewrite (check_resources_sampled w cpu memory disk) by assumption.
    rewrite Hzero. reflexivity. }
  split; [exact Hres | now apply validation_flow_raise].
Qed.

Lemma zero_size_disk_raises_witness :
  check_resources world_zero_disk
    = Raise (Exn "ZeroDivisionError" "division by zero") /\
  validation_flow world_zero_disk
    = Raise (Exn "ZeroDivisionError" "division by zero").
Proof.
  apply (zero_size_disk_raises world_zero_disk (FFinite (25 # 2))
           {| mem_total := 13249974108; mem_used := 134217728;
              mem_percent := FFinite (412 # 10) |}
           {| disk_total := 0; disk_used := 0 |});
    try reflexivity.
  unfold counters64. cbn. lia.
Defined.



(** ** Exact and nearly exact figures *)

Lemma gb_rounded_whole (k : N) :
  (k < 2 ^ 53)%N -> gb_rounded (k * 1024 ^ 3) = inject_Z (Z.of_N k).
Proof.
  intros Hk. set (z := Z.of_N k).
  assert (0 <= z < 2 ^ 53) as Hz by (unfold z; lia).
  assert (0 <= inject_Z z)%Q as Hz0
    by (change 0%Q with (inject_Z 0); rewrite <- Zle_Qle; lia).
  assert (bytes_to_gb (k * 1024 ^ 3) = inject_Z z) as Hgb.
  { unfold bytes_to_gb. rewrite <- (rnd64_inject_Z z Hz).
    apply rnd64_proper.
    - apply Qle_shift_div_l; [reflexivity|]. rewrite Qmult_0_l.
      apply inject_Z_of_N_nonneg.
    - rewrite N2Z.inj_mul, inject_Z_mult. fold z.
      change (Z.of_N (1024 ^ 3)) with (1024 ^ 3). field. discriminate. }
  unfold gb_rounded. rewrite Hgb.
  rewrite <- (rnd64_inject_Z z Hz) at 2.
  apply rnd64_proper.
  - now apply decimal_round_nonneg.
  - apply decimal_round_inject_Z.
Qed.

(** X8. A counter that is a whole number [k] of gibibytes, [k < 2^53], is
    reported as exactly [k]: neither the float division nor the rounding to
    two places changes it. *)
Theorem whole_gigabytes_exact
  (w : World) (r : pyval) (memory : svmem) (disk : sdiskusage)
  (name : string) (n k : N) :
  check_resources w = Ok r ->
  virtual_memory w = Ok memory ->
  disk_usage w "/" = Ok disk ->
  In (name, n) (gb_fields memory disk) ->
  (k < 2 ^ 53)%N ->
  n = (k * 1024 ^ 3)%N ->
  field r name = Some (VFloat (FFinite (inject_Z (Z.of_N k)))).
Proof.
  intros Hrun Hmem Hdisk Hin Hk ->.
  apply check_resources_inv in Hrun
    as (cpu & memory' & disk' & dp & _ & Hmem' & Hdisk' & _ & _ & ->).
  rewrite Hmem in Hmem'. injection Hmem' as <-.
  rewrite Hdisk in Hdisk'. injection Hdisk' as <-.
  pose proof (gb_rounded_whole k Hk) as Hwhole.
  unfold gb_fields in Hin. cbn [In] in Hin.
  destruct Hin as [[= <- Hn] | [[= <- Hn] | [[= <- Hn] | [[= <- Hn] | []]]]];
    cbn; rewrite Hn, Hwhole; reflexivity.
Qed.

Lemma whole_gigabytes_exact_witness :
  field resources_ecs "disk_total_gb" = Some (VFloat (FFinite 100)).
Proof.
  apply (whole_gigabytes_exact world_ecs resources_ecs
           {| mem_total := 13249974108; mem_used := 134217728;
              mem_percent := FFinite (412 # 10) |}
           {| disk_total := 107374182400; disk_used := 35433480192 |}
           "disk_total_gb" 107374182400 100).
  - vm_compute. reflexivity.
  - reflexivity.
  - reflexivity.
  - cbn. auto.
  - reflexivity.
  - reflexivity.
Defined.

(** X9. A full disk is reported as exactly 100.0 percent and an untouched
    one as exactly 0.0 percent. *)
Theorem disk_percent_endpoints
  (w : World) (r : pyval) (disk : sdiskusage) :
  check_resources w = Ok r ->
  disk_usage w "/" = Ok disk ->
  (disk_used disk = disk_total disk ->
   field r "disk_percent" = Some (VFloat (FFinite 100))) /\
  (disk_used disk = 0%N ->
   field r "disk_percent" = Some (VFloat (FFinite 0))).
Proof.
  intros Hrun Hdisk.
  apply check_resources_inv in Hrun
    as (cpu & memory & disk' & dp & _ & _ & Hdisk' & Htotal & Hdp & ->).
  rewrite Hdisk in Hdisk'. injection Hdisk' as <-.
  assert (0 < inject_Z (Z.of_N (disk_total disk)))%Q as Hpos
    by (change 0%Q with (inject_Z 0); rewrite <- Zlt_Qlt; lia).
  split; intros Hused; rewrite Hused in Hdp; cbn.
  - rewrite (rnd64_proper _ 1) in Hdp.
    + vm_compute in Hdp. now injection Hdp as <-.
    + apply Qle_shift_div_l; [exact Hpos|]. lra.
    + field. lra.
  - rewrite (rnd64_proper _ 0) in Hdp.
    + vm_compute in Hdp. now injection Hdp as <-.
    + apply Qle_shift_div_l; [exact Hpos|]. rewrite Qmult_0_l. apply Qle_refl.
    + change (inject_Z (Z.of_N 0)) with 0%Q. field. lra.
Qed.

Lemma disk_percent_endpoints_witness :
  field resources_full_disk "disk_percent" = Some (VFloat (FFinite 100)) /\
  field resources_fresh_disk "disk_percent" = Some (VFloat (FFinite 0)).
Proof.
  split.
  - apply (disk_percent_endpoints world_full_disk resources_full_disk
             {| disk_total := 107374182400; disk_used := 107374182400 |});
      [vm_compute; reflexivity | reflexivity | reflexivity].
  - apply (disk_percent_endpoints world_fresh_disk resources_fresh_disk
             {| disk_total := 107374182400; disk_used := 0 |});
      [vm_compute; reflexivity | reflexivity | reflexivity].
Defined.

Lemma disk_percent_value (used total : N) (dp : pyfloat) :
  (used <= total)%N -> total <> 0%N ->
  py_round
    (py_fmul
       (FFinite (rnd64 (inject_Z (Z.of_N used) / inject_Z (Z.of_N total))))
       (FFinite 100)) 2 = Ok dp ->
  (0 <= inject_Z (Z.of_N used) / inject_Z (Z.of_N total))%Q /\
  (inject_Z (Z.of_N used) / inject_Z (Z.of_N total) <= 1)%Q /\
  dp = FFinite
         (rnd64 (decimal_round 2
            (rnd64 (rnd64 (inject_Z (Z.of_N used) / inject_Z (Z.of_N total))
                    * 100)))).
Proof.
  intros Hle Hpos.
  set (ratio := rnd64 (inject_Z (Z.of_N used) / inject_Z (Z.of_N total))).
  assert (0 < inject_Z (Z.of_N total))%Q as Ht
    by (change 0%Q with (inject_Z 0); rewrite <- Zlt_Qlt; lia).
  assert (0 <= inject_Z (Z.of_N used) / inject_Z (Z.of_N total))%Q as Hq0.
  { apply Qle_shift_div_l; [exact Ht|]. rewrite Qmult_0_l.
    apply inject_Z_of_N_nonneg. }
  assert (inject_Z (Z.of_N used) / inject_Z (Z.of_N total) <= 1)%Q as Hq1.
  { apply Qle_shift_div_r; [exact Ht|]. rewrite Qmult_1_l.
    rewrite <- Zle_Qle. lia. }
  assert (0 <= ratio)%Q as Hr0 by now apply rnd64_nonneg.
  assert (ratio <= 1)%Q as Hr1.
  { apply Qle_trans with (rnd64 1).
    - now apply rnd64_mono.
    - rewrite rnd64_1. apply Qle_refl. }
  assert (0 <= ratio * 100)%Q as Hm0 by lra.
  assert (ratio * 100 <= 100)%Q as Hm1 by lra.
  pose proof (rnd64_nonneg _ Hm0) as Hp0.
  pose proof (rnd64_le_100 _ Hm0 Hm1) as Hp1.
  unfold py_fmul. rewrite (overflows_bounded _ Hp0 Hp1).
  intros Hround. apply py_round_finite in Hround.
  split; [exact Hq0|]. split; [exact Hq1 | exact Hround].
Qed.

(** The error of the float computation [round(q * 100, 2)] for a quotient
    [q] between 0 and 1. *)
Lemma percent_chain_accurate (q : Q) :
  (0 <= q)%Q -> (q <= 1)%Q ->
  (Qabs (rnd64 (decimal_round 2 (rnd64 (rnd64 q * 100))) - 100 * q)
   <= (1 # 200) + (1 # 17592186044416))%Q.
Proof.
  intros Hq0 Hq1.
  pose proof (rnd64_nonneg q Hq0) as Hr0.
  assert (rnd64 q <= 1)%Q as Hr1.
  { apply Qle_trans with (rnd64 1); [now apply rnd64_mono|].
    rewrite rnd64_1. apply Qle_refl. }
  assert (2 ^ 0 == 1)%Q as P0 by reflexivity.
  assert (2 ^ 7 == 128)%Q as P7 by reflexivity.
  assert (2 ^ (0 - 53) == 1 # 9007199254740992)%Q as P53 by reflexivity.
  assert (2 ^ (7 - 53) == 1 # 70368744177664)%Q as P46 by reflexivity.
  assert (Qabs (rnd64 q - q) <= 1 # 9007199254740992)%Q as E1.
  { rewrite <- P53. apply rnd64_error; [exact Hq0 | now rewrite P0 | lia]. }
  assert (0 <= rnd64 q * 100)%Q as Hm0 by lra.
  assert (rnd64 q * 100 <= 100)%Q as Hm1 by lra.
  pose proof (rnd64_nonneg _ Hm0) as Hp0.
  pose proof (rnd64_le_100 _ Hm0 Hm1) as Hp1.
  assert (Qabs (rnd64 (rnd64 q * 100) - rnd64 q * 100)
          <= 1 # 70368744177664)%Q as E2.
  { rewrite <- P46. apply rnd64_error; [exact Hm0 | rewrite P7; lra | lia]. }
  pose proof (decimal_round_nonneg _ Hp0) as Hd0.
  pose proof (decimal_round_le_100 _ Hp1) as Hd1.
  assert (Qabs (decimal_round 2 (rnd64 (rnd64 q * 100))
                - rnd64 (rnd64 q * 100)) <= 1 # 200)%Q as E3.
  { rewrite decimal_round_2. apply decimal_round_near. }
  assert (Qabs (rnd64 (decimal_round 2 (rnd64 (rnd64 q * 100)))
                - decimal_round 2 (rnd64 (rnd64 q * 100)))
          <= 1 # 70368744177664)%Q as E4.
  { rewrite <- P46. apply rnd64_error; [exact Hd0 | rewrite P7; lra | lia]. }
  apply Qabs_Qle_condition in E1, E2, E3, E4.
  apply Qabs_Qle_condition. split; lra.
Qed.

(** X10. With [used <= total] the reported disk percentage is within half a
    hundredth, plus a float error below 2^-44, of the exact percentage
    [100 * used / total]. *)
Theorem disk_percent_accurate
  (w : World) (r : pyval) (disk : sdiskusage) :
  check_resources w = Ok r ->
  disk_usage w "/" = Ok disk ->
  (disk_used disk <= disk_total disk)%N ->
  exists dp,
    field r "disk_percent" = Some (VFloat (FFinite dp)) /\
    (Qabs (dp - disk_percent_exact disk) <= (1 # 200) + 2 ^ (-44))%Q.
Proof.
  intros Hrun Hdisk Hle.
  apply check_resources_inv in Hrun
    as (cpu & memory & disk' & dp & _ & _ & Hdisk' & Htotal & Hdp & ->).
  rewrite Hdisk in Hdisk'. injection Hdisk' as <-.
  apply (disk_percent_value _ _ dp Hle Htotal) in Hdp as (Hq0 & Hq1 & ->).
  eexists. split; [reflexivity|].
  assert (2 ^ (-44) == 1 # 17592186044416)%Q as -> by reflexivity.
  unfold disk_percent_exact. now apply percent_chain_accurate.
Qed.

Lemma disk_percent_accurate_witness :
  exists dp,
    field resources_ecs "disk_percent" = Some (VFloat (FFinite dp)) /\
    (Qabs (dp - disk_percent_exact
                  {| disk_total := 107374182400; disk_used := 35433480192 |})
     <= (1 # 200) + 2 ^ (-44))%Q.
Proof.
  apply (disk_percent_accurate world_ecs resources_ecs
           {| disk_total := 107374182400; disk_used := 35433480192 |}).
  - vm_compute. reflexivity.
  - reflexivity.
  - cbn. lia.
Defined.

Lemma gb_rounded_accurate (n : N) :
  (n < 2 ^ 64)%N ->
  (Qabs (gb_rounded n - inject_Z (Z.of_N n) / inject_Z (1024 ^ 3))
   <= (1 # 200) + (1 # 262144))%Q.
Proof.
  intros Hn. destruct (gb_quotient_bounds n Hn) as [H0 H34].
  unfold gb_rounded, bytes_to_gb.
  set (x := (inject_Z (Z.of_N n) / inject_Z (1024 ^ 3))%Q) in *.
  assert (2 ^ (34 - 53) == 1 # 524288)%Q as P19 by reflexivity.
  pose proof (rnd64_nonneg x H0) as Ha0.
  assert (rnd64 x <= 2 ^ 34)%Q as Ha34
    by (apply rnd64_le_pow; [exact H0 | exact H34 | lia]).
  assert (Qabs (rnd64 x - x) <= 1 # 524288)%Q as E1.
  { rewrite <- P19. apply rnd64_error; [exact H0 | exact H34 | lia]. }
  pose proof (decimal_round_nonneg _ Ha0) as Hc0.
  assert (decimal_round 2 (rnd64 x) <= 2 ^ 34)%Q as Hc34.
  { rewrite two_pow_inject by lia. apply decimal_round_le_Z.
    now rewrite <- two_pow_inject by lia. }
  assert (Qabs (decimal_round 2 (rnd64 x) - rnd64 x) <= 1 # 200)%Q as E3.
  { rewrite decimal_round_2. apply decimal_round_near. }
  assert (Qabs (rnd64 (decimal_round 2 (rnd64 x)) - decimal_round 2 (rnd64 x))
          <= 1 # 524288)%Q as E4.
  { rewrite <- P19. apply rnd64_error; [exact Hc0 | exact Hc34 | lia]. }
  apply Qabs_Qle_condition in E1, E3, E4.
  apply Qabs_Qle_condition. split; lra.
Qed.

(** X11. For a byte counter below 2^64 the reported gigabyte figure is
    within half a hundredth, plus a float error of at most 2^-18, of the
    exact quotient [n / 1024^3]. *)
Theorem gigabyte_fields_accurate
  (w : World) (r : pyval) (memory : svmem) (disk : sdiskusage)
  (name : string) (n : N) :
  check_resources w = Ok r ->
  virtual_memory w = Ok memory ->
  disk_usage w "/" = Ok disk ->
  In (name, n) (gb_fields memory disk) ->
  (n < 2 ^ 64)%N ->
  exists v,
    field r name = Some (VFloat (FFinite v)) /\
    (Qabs (v - inject_Z (Z.of_N n) / inject_Z (1024 ^ 3))
     <= (1 # 200) + 2 ^ (-18))%Q.
Proof.
  intros Hrun Hmem Hdisk Hin Hn.
  apply check_resources_inv in Hrun
    as (cpu & memory' & disk' & dp & _ & Hmem' & Hdisk' & _ & _ & ->).
  rewrite Hmem in Hmem'. injection Hmem' as <-.
  rewrite Hdisk in Hdisk'. injection Hdisk' as <-.
  pose proof (gb_rounded_accurate n Hn) as Hacc.
  exists (gb_rounded n). split;
    [|assert (2 ^ (-18) == 1 # 262144)%Q as -> by reflexivity; exact Hacc].
  unfold gb_fields in Hin. cbn [In] in Hin.
  destruct Hin as [[= <- <-] | [[= <- <-] | [[= <- <-] | [[= <- <-] | []]]]];
    reflexivity.
Qed.

Lemma gigabyte_fields_accurate_witness :
  exists v,
    field resources_ecs "memory_used_gb" = Some (VFloat (FFinite v)) /\
    (Qabs (v - inject_Z (Z.of_N 134217728) / inject_Z (1024 ^ 3))
     <= (1 # 200) + 2 ^ (-18))%Q.
Proof.
  apply (gigabyte_fields_accurate world_ecs resources_ecs
           {| mem_total := 13249974108; mem_used := 134217728;
              mem_percent := FFinite (412 # 10) |}
           {| disk_total := 107374182400; disk_used := 35433480192 |}).
  - vm_compute. reflexivity.
  - reflexivity.
  - reflexivity.
  - cbn. auto.
  - reflexivity.
Defined.

(* ================================================================== *)
(** ** Reading the records back *)

(** X12. The subscripts with which the flow reads its own records back
    (for the report lines, the banner and the command-line result) never
    raise [KeyError]: every entry has string-valued ["test"] and ["status"],
    the resource record has its seven float-valued keys, and a returned
    summary has a boolean ["validation_success"]. *)
Theorem records_read_back (w : World) :
  (forall tests,
     test_connectivity w = Ok tests ->
     Forall (fun t => exists name status,
                        py_getitem t "test" = Ok (VStr name) /\
                        py_getitem t "status" = Ok (VStr status)) tests) /\
  (forall r,
     check_resources w = Ok r ->
     Forall (fun key => exists x, py_getitem r key = Ok (VFloat x))
       ["cpu_percent"; "memory_used_gb"; "memory_total_gb"; "memory_percent";
        "disk_used_gb"; "disk_total_gb"; "disk_percent"]) /\
  (forall summary,
     validation_flow w = Ok summary ->
     exists flag, py_getitem summary "validation_success" = Ok (VBool flag)).
Proof.
  assert (exists name status,
            py_getitem (internet_entry w) "test" = Ok (VStr name) /\
            py_getitem (internet_entry w) "status" = Ok (VStr status)) as Hi.
  { unfold internet_entry.
    destruct (http_json w _ _); do 2 eexists; split; reflexivity. }
  assert (forall base, exists name status,
            py_getitem (metadata_entry w base) "test" = Ok (VStr name) /\
            py_getitem (metadata_entry w base) "status" = Ok (VStr status))
    as Hm.
  { intros base. unfold metadata_entry.
    destruct (http_json w _ _) as [[]|]; do 2 eexists; split; reflexivity. }
  split; [|split].
  - intros tests Htests.
    destruct (str_truthy (environ w !! metadata_var)) eqn:Ht.
    + apply str_truthy_true in Ht as (base & Henv & Hne).
      rewrite (test_connectivity_run w base Henv Hne) in Htests.
      injection Htests as <-.
      constructor; [exact Hi | constructor; [apply Hm | constructor]].
    + rewrite (test_connectivity_skip w Ht) in Htests.
      injection Htests as <-.
      constructor; [exact Hi | constructor].
  - intros r Hrun.
    apply check_resources_inv in Hrun
      as (cpu & memory & disk & dp & _ & _ & _ & _ & _ & ->).
    repeat (constructor; [eexists; reflexivity|]). constructor.
  - intros summary Hrun.
    apply validation_flow_inv in Hrun as (info & tests & r & _ & _ & _ & ->).
    eexists. reflexivity.
Qed.
